(** * Credential resolution for the Bedrock provider: a shallow embedding

    The development follows the TypeScript sources:
    - [app/lib/services/awsCredentialService.ts]  (module [AWSCredentialService])
    - [app/lib/services/awsSsoService.ts]         (module [AWSSSOService])
    - the revisions of [amazon-bedrock.ts] and their [_parseAndValidateConfig]
      (modules [BedrockStatic], [BedrockSSO], [BedrockEnvRegion]).

    JavaScript exceptions are a [Result]; the calls that leave the process
    (file system, sub-processes, HTTP, the AWS SDK) are oracles of a [World]
    and every such call is recorded in a trace of [Event]s. *)

From Stdlib Require Import ZArith Ascii String.
From Stdlib Require Import DecimalString.
From stdpp Require Import base option list strings gmap.

Local Open Scope string_scope.
Local Open Scope list_scope.

(** ** The JavaScript runtime *)

Module Js.

(** A thrown value: an [Error] with its message, or any other value. *)
Inductive exn : Type :=
| JsError (message : string)
| JsThrown.

Inductive Result (A : Type) : Type :=
| Ok (a : A)
| Throw (e : exn).
Arguments Ok {A} a.
Arguments Throw {A} e.

(** [error instanceof Error ? error.message : 'Unknown error'] *)
Definition errorMessage (error : exn) : string :=
  match error with
  | JsError message => message
  | JsThrown => "Unknown error"
  end.

(** An optional string property: [None] is [undefined].  Of the strings
    only the empty one is falsy. *)
Definition truthy (v : option string) : bool :=
  match v with
  | Some s => negb (String.eqb s EmptyString)
  | None => false
  end.

(** [a || b] on optional strings. *)
Definition or_else (a b : option string) : option string :=
  if truthy a then a else b.

(** The value of a property that was tested truthy. *)
Definition nonEmpty (v : option string) : option string :=
  if truthy v then v else None.

(** *** String.prototype *)

Definition startsWith (searchString s : string) : bool :=
  String.prefix searchString s.

Definition endsWith (searchString s : string) : bool :=
  let n := String.length s in
  let k := String.length searchString in
  if (k <=? n)%nat
  then String.eqb (String.substring (n - k) k s) searchString
  else false.

Fixpoint includes (searchString s : string) : bool :=
  String.prefix searchString s ||
  match s with
  | EmptyString => false
  | String _ rest => includes searchString rest
  end.

(** A string is its sequence of code units, taken below 256.  Of these the
    white space and line terminators that [trim] strips are TAB, LF, VT, FF,
    CR, SP and NBSP. *)
Definition isWhiteSpace (c : ascii) : bool :=
  match nat_of_ascii c with
  | 9 | 10 | 11 | 12 | 13 | 32 | 160 => true
  | _ => false
  end.

Fixpoint trimStart (s : string) : string :=
  match s with
  | EmptyString => EmptyString
  | String c rest => if isWhiteSpace c then trimStart rest else s
  end.

Fixpoint trimEnd (s : string) : string :=
  match s with
  | EmptyString => EmptyString
  | String c rest =>
      match trimEnd rest with
      | EmptyString => if isWhiteSpace c then EmptyString else String c EmptyString
      | rest' => String c rest'
      end
  end.

Definition trim (s : string) : string := trimEnd (trimStart s).

(** [s.split(sep)] for a one-character separator. *)
Fixpoint split (sep : ascii) (s : string) : list string :=
  match s with
  | EmptyString => [EmptyString]
  | String c rest =>
      if Ascii.eqb c sep then EmptyString :: split sep rest
      else match split sep rest with
           | piece :: pieces => String c piece :: pieces
           | [] => [String c EmptyString]
           end
  end.

(** A relative index of [slice]: negative counts from the end, and the
    result is clamped to the string. *)
Definition sliceIndex (len : nat) (i : Z) : nat :=
  if (i <? 0)%Z then Z.to_nat (Z.max (Z.of_nat len + i) 0)
  else Nat.min (Z.to_nat i) len.

(** [s.slice(start, end)] *)
Definition slice (start end_ : Z) (s : string) : string :=
  let len := String.length s in
  let from := sliceIndex len start in
  let to := sliceIndex len end_ in
  String.substring from (to - from) s.

Definition newline : ascii := ascii_of_nat 10.

End Js.

(** ** The world outside the process, and effectful computations *)

Module Node.
Import Js.

(** A JavaScript value stored in a property of a credential object. *)
Inductive JsVal : Type :=
| JsUndefined
| JsString (s : string).

(** [AwsCredentialIdentity]: an object, its own properties keyed by name. *)
Abbreviation AwsCredentialIdentity := (gmap string JsVal).

(** The answer to [GetCallerIdentityCommand]. *)
Record CallerIdentity : Type := {
  Account : option string;
  Arn : option string;
  UserId : option string;
}.

(** What the process can observe at the moment of a call. *)
Record World : Type := {
  (** [fs.existsSync(path)], [fs.readFileSync(path, 'utf8')] *)
  existsSync : string -> bool;
  readFileSync : string -> Result string;
  (** [process.env] *)
  process_env : gmap string string;
  (** [execAsync(command)]: the standard output, or the failure *)
  execAsync : string -> Result string;
  (** [fetch(url, { signal })]: [response.ok], or the network error or abort *)
  fetch : string -> Result bool;
  (** [path.join(os.homedir(), '.aws', 'config')] *)
  awsConfigPath : string;
  (** [fromNodeProviderChain({ clientConfig: { region } })()] *)
  fromNodeProviderChain : string -> Result AwsCredentialIdentity;
  (** [fromIni({ profile, clientConfig: { region } })()] *)
  fromIni : string -> string -> Result AwsCredentialIdentity;
  (** [fromSSO({ ssoStartUrl, ssoRegion, ssoAccountId, ssoRoleName,
      clientConfig: { region } })()] *)
  fromSSO : string -> option string -> option string -> option string ->
            string -> Result AwsCredentialIdentity;
  (** [new STSClient({ region, credentials }).send(new GetCallerIdentityCommand({}))] *)
  getCallerIdentity : string -> AwsCredentialIdentity -> Result CallerIdentity;
}.

(** A call that leaves the process, or a line on the console. *)
Inductive Event : Type :=
| ConsoleLog (msg : string)
| ConsoleError (msg : string)
| FsExistsSync (path : string)
| FsReadFileSync (path : string)
| ExecAsync (command : string)
| Fetch (url : string)
| NodeProviderChain (region : string)
| Ini (profile region : string)
| SSO (ssoStartUrl : string) (ssoRegion ssoAccountId ssoRoleName : option string)
      (region : string)
| StsGetCallerIdentity (region : string) (credentials : AwsCredentialIdentity).

(** A method of a service whose instance state is [S]: it reads the world,
    may update the instance, returns or throws, and leaves a trace. *)
Definition M (S A : Type) : Type :=
  World -> S -> Result A * S * list Event.

Definition ret {S A} (a : A) : M S A :=
  fun _ s => (Ok a, s, []).

Definition bind {S A B} (m : M S A) (k : A -> M S B) : M S B :=
  fun w s =>
    match m w s with
    | (Ok a, s1, t1) =>
        match k a w s1 with
        | (r, s2, t2) => (r, s2, t1 ++ t2)
        end
    | (Throw e, s1, t1) => (Throw e, s1, t1)
    end.

(** [throw e] *)
Definition throw {S A} (e : exn) : M S A :=
  fun _ s => (Throw e, s, []).

(** [try { body } catch (error) { handler }] *)
Definition try_catch {S A} (body : M S A) (handler : exn -> M S A) : M S A :=
  fun w s =>
    match body w s with
    | (Ok a, s1, t1) => (Ok a, s1, t1)
    | (Throw e, s1, t1) =>
        match handler e w s1 with
        | (r, s2, t2) => (r, s2, t1 ++ t2)
        end
    end.

(** A call to the outside: recorded, answered by the world. *)
Definition call {S A} (ev : Event) (answer : World -> Result A) : M S A :=
  fun w s => (answer w, s, [ev]).

Definition emit {S} (ev : Event) : M S unit :=
  fun _ s => (Ok tt, s, [ev]).

(** Reading memory of the process ([process.env], a constant path). *)
Definition ask {S A} (f : World -> A) : M S A :=
  fun w s => (Ok (f w), s, []).

Definition get {S} : M S S :=
  fun _ s => (Ok s, s, []).

Definition put {S} (s' : S) : M S unit :=
  fun _ _ => (Ok tt, s', []).

#[global] Instance M_ret {S} : MRet (M S) := @ret S.
#[global] Instance M_bind {S} : MBind (M S) := fun A B k m => bind m k.

Definition console_log {S} (msg : string) : M S unit := emit (ConsoleLog msg).
Definition console_error {S} (msg : string) : M S unit := emit (ConsoleError msg).

Definition fs_existsSync {S} (path : string) : M S bool :=
  call (FsExistsSync path) (fun w => Ok (existsSync w path)).
Definition fs_readFileSync {S} (path : string) : M S string :=
  call (FsReadFileSync path) (fun w => readFileSync w path).
Definition getenv {S} (name : string) : M S (option string) :=
  ask (fun w => process_env w !! name).
Definition exec {S} (command : string) : M S string :=
  call (ExecAsync command) (fun w => execAsync w command).
Definition fetch_ok {S} (url : string) : M S bool :=
  call (Fetch url) (fun w => fetch w url).

(** Projections of a finished run. *)
Definition result {S A} (o : Result A * S * list Event) : Result A := o.1.1.
Definition instance {S A} (o : Result A * S * list Event) : S := o.1.2.
Definition trace {S A} (o : Result A * S * list Event) : list Event := o.2.

End Node.

(** ** app/lib/services/awsCredentialService.ts *)

Module AWSCredentialService.
Import Js Node.

Inductive AuthType : Type := Auto | Sso | Static.

Record AWSCredentialConfig : Type := {
  authType : option AuthType;
  region : string;
  profile : option string;
  ssoStartUrl : option string;
  ssoRegion : option string;
  ssoAccountId : option string;
  ssoRoleName : option string;
  accessKeyId : option string;
  secretAccessKey : option string;
  sessionToken : option string;
  roleArn : option string;
  externalId : option string;
}.

Record EnvironmentInfo : Type := {
  isContainer : bool;
  isECS : bool;
  isEKS : bool;
  hasAwsCli : bool;
  hasIamRole : bool;
}.

(** The instance: [private environmentInfo: EnvironmentInfo | null = null]. *)
Record Service : Type := {
  environmentInfo : option EnvironmentInfo;
}.

(** [new AWSCredentialService()] *)
Definition fresh : Service := {| environmentInfo := None |}.

Record CredentialStatus : Type := {
  available : bool;
  method : string;
  identity : option CallerIdentity;
  error : option string;
}.

(** [config.authType === 'sso'] *)
Definition isSso (a : option AuthType) : bool :=
  match a with
  | Some Sso => true
  | _ => false
  end.

Definition isRunningInContainer : M Service bool :=
  try_catch
    (dockerenv ← fs_existsSync "/.dockerenv";
     if dockerenv : bool then mret true
     else
       cgroup ← fs_existsSync "/proc/1/cgroup";
       if cgroup : bool
       then content ← fs_readFileSync "/proc/1/cgroup";
            mret (includes "docker" content)
       else mret false)
    (fun _ => mret false).

Definition isRunningInECS : M Service bool :=
  try_catch
    (executionEnv ← getenv "AWS_EXECUTION_ENV";
     if match executionEnv with
        | Some v => includes "ECS" v
        | None => false
        end
     then mret true
     else
       uri ← getenv "ECS_CONTAINER_METADATA_URI";
       if truthy uri then mret true
       else
         uriV4 ← getenv "ECS_CONTAINER_METADATA_URI_V4";
         mret (truthy uriV4))
    (fun _ => mret false).

Definition isRunningInEKS : M Service bool :=
  try_catch
    (token ← fs_existsSync "/var/run/secrets/kubernetes.io/serviceaccount/token";
     if token : bool
     then host ← getenv "KUBERNETES_SERVICE_HOST";
          mret (truthy host)
     else mret false)
    (fun _ => mret false).

Definition isAwsCliAvailable : M Service bool :=
  try_catch
    (_ ← exec "aws --version"; mret true)
    (fun _ => mret false).

Definition hasIamRoleAttached : M Service bool :=
  try_catch
    (fetch_ok "http://169.254.169.254/latest/meta-data/iam/security-credentials/")
    (fun _ => mret false).

Definition detectEnvironment : M Service EnvironmentInfo :=
  this ← get;
  match environmentInfo this with
  | Some cached => mret cached
  | None =>
      isContainer ← isRunningInContainer;
      isECS ← isRunningInECS;
      isEKS ← isRunningInEKS;
      hasAwsCli ← isAwsCliAvailable;
      hasIamRole ← hasIamRoleAttached;
      let info := {| isContainer := isContainer; isECS := isECS; isEKS := isEKS;
                     hasAwsCli := hasAwsCli; hasIamRole := hasIamRole |} in
      _ ← put {| environmentInfo := Some info |};
      _ ← console_log "AWS Environment Detection:";
      mret info
  end.

Definition validateCredentials (credentials : AwsCredentialIdentity)
    (region : string) : M Service unit :=
  try_catch
    (_ ← call (StsGetCallerIdentity region credentials)
           (fun w => getCallerIdentity w region credentials);
     console_log "AWS credentials validated successfully")
    (fun error =>
       throw (JsError ("Credential validation failed: " +:+ errorMessage error))).

Definition getProductionCredentials (config : AWSCredentialConfig)
    : M Service AwsCredentialIdentity :=
  _ ← console_log "Using production credential resolution";
  credentials ← call (NodeProviderChain (region config))
                  (fun w => fromNodeProviderChain w (region config));
  _ ← validateCredentials credentials (region config);
  mret credentials.

Definition getDevelopmentSSOCredentials (config : AWSCredentialConfig)
    : M Service AwsCredentialIdentity :=
  _ ← console_log "Using development SSO credential resolution";
  match nonEmpty (profile config) with
  | Some profile =>
      call (Ini profile (region config))
        (fun w => fromIni w profile (region config))
  | None =>
      match nonEmpty (ssoStartUrl config) with
      | Some ssoStartUrl =>
          call (SSO ssoStartUrl (ssoRegion config) (ssoAccountId config)
                  (ssoRoleName config) (region config))
            (fun w => fromSSO w ssoStartUrl (ssoRegion config) (ssoAccountId config)
                        (ssoRoleName config) (region config))
      | None =>
          throw (JsError "SSO configuration requires either profile or SSO details")
      end
  end.

(** [{ accessKeyId, secretAccessKey, sessionToken: config.sessionToken }] *)
Definition staticIdentity (accessKeyId secretAccessKey : string)
    (sessionToken : option string) : AwsCredentialIdentity :=
  <["accessKeyId" := JsString accessKeyId]>
    (<["secretAccessKey" := JsString secretAccessKey]>
       (<["sessionToken" := from_option JsString JsUndefined sessionToken]> ∅)).

Definition getFallbackCredentials (config : AWSCredentialConfig)
    : M Service AwsCredentialIdentity :=
  _ ← console_log "Using fallback credential resolution";
  match nonEmpty (accessKeyId config), nonEmpty (secretAccessKey config) with
  | Some accessKeyId, Some secretAccessKey =>
      mret (staticIdentity accessKeyId secretAccessKey (sessionToken config))
  | _, _ =>
      call (NodeProviderChain (region config))
        (fun w => fromNodeProviderChain w (region config))
  end.

(** [env.isContainer && (env.isECS || env.isEKS || env.hasIamRole)] *)
Definition isProduction (env : EnvironmentInfo) : bool :=
  isContainer env && (isECS env || isEKS env || hasIamRole env).

Definition getCredentials (config : AWSCredentialConfig)
    : M Service AwsCredentialIdentity :=
  env ← detectEnvironment;
  try_catch
    (if isProduction env
     then getProductionCredentials config
     else if hasAwsCli env && isSso (authType config)
     then getDevelopmentSSOCredentials config
     else getFallbackCredentials config)
    (fun error =>
       _ ← console_error "Failed to get AWS credentials:";
       throw (JsError ("AWS credential resolution failed: " +:+ errorMessage error))).

Definition methodOf (env : EnvironmentInfo) (config : AWSCredentialConfig) : string :=
  if isECS env then "ECS Task Role"
  else if isEKS env then "EKS Service Account"
  else if hasIamRole env then "EC2 Instance Profile"
  else if isSso (authType config) then "AWS SSO"
  else if truthy (accessKeyId config) then "Static Credentials"
  else "Default Credential Chain".

Definition checkCredentialStatus (config : AWSCredentialConfig)
    : M Service CredentialStatus :=
  try_catch
    (credentials ← getCredentials config;
     env ← detectEnvironment;
     identity ← call (StsGetCallerIdentity (region config) credentials)
                  (fun w => getCallerIdentity w (region config) credentials);
     mret {| available := true;
             method := methodOf env config;
             identity := Some {| Account := Account identity;
                                 Arn := Arn identity;
                                 UserId := UserId identity |};
             error := None |})
    (fun error =>
       mret {| available := false;
               method := "none";
               identity := None;
               error := Some (errorMessage error) |}).

(** The body of the loop over the lines of the configuration file. *)
Definition pushProfile (profiles : list string) (line : string) : list string :=
  let trimmedLine := trim line in
  if startsWith "[default]" trimmedLine then profiles ++ ["default"]
  else if startsWith "[profile " trimmedLine
  then let profileName := trim (slice 9 (-1) trimmedLine) in
       profiles ++ [profileName]
  else profiles.

Definition profilesOf (configContent : string) : list string :=
  fold_left pushProfile (split newline configContent) [].

Definition getAvailableProfiles : M Service (list string) :=
  env ← detectEnvironment;
  if isContainer env then mret []
  else
    try_catch
      (configPath ← ask awsConfigPath;
       present ← fs_existsSync configPath;
       if present : bool
       then configContent ← fs_readFileSync configPath;
            mret (profilesOf configContent)
       else mret [])
      (fun _ =>
         _ ← console_error "Failed to read AWS config:";
         mret []).

(** [profile ? `aws sso login --profile ${profile}` : 'aws sso login'] *)
Definition loginCommand (profile : option string) : string :=
  match nonEmpty profile with
  | Some profile => "aws sso login --profile " +:+ profile
  | None => "aws sso login"
  end.

Definition initiateSSORLogin (profile : option string) : M Service unit :=
  env ← detectEnvironment;
  if negb (hasAwsCli env)
  then throw (JsError "AWS CLI is not available. In production, use IAM roles instead of SSO.")
  else if isContainer env
  then throw (JsError "SSO login is not supported in container environments. Use IAM roles for production.")
  else
    let command := loginCommand profile in
    _ ← console_log ("Executing: " +:+ command);
    try_catch
      (_ ← exec command;
       console_log "AWS SSO login successful:")
      (fun error =>
         _ ← console_error "AWS SSO login failed:";
         throw (JsError ("AWS SSO login failed: " +:+ errorMessage error))).

End AWSCredentialService.

(** ** app/lib/services/awsSsoService.ts *)

Module AWSSSOService.
Import Js Node.

(** The instance has no fields. *)
Definition Service : Type := unit.

Definition pushProfile (profiles : list string) (line : string) : list string :=
  let trimmedLine := trim line in
  if String.eqb trimmedLine "[default]" then profiles ++ ["default"]
  else if startsWith "[profile " trimmedLine && endsWith "]" trimmedLine
  then let profileName := slice 9 (-1) trimmedLine in
       profiles ++ [profileName]
  else profiles.

Definition profilesOf (configContent : string) : list string :=
  fold_left pushProfile (split newline configContent) [].

Definition getAvailableProfiles : M Service (list string) :=
  try_catch
    (configPath ← ask awsConfigPath;
     present ← fs_existsSync configPath;
     if present : bool
     then configContent ← fs_readFileSync configPath;
          mret (profilesOf configContent)
     else mret [])
    (fun _ =>
       _ ← console_error "Failed to get available profiles:";
       mret []).

(** *** Reading one profile of the configuration file *)

(** [Partial<AWSSSOConfig>], as the loop of [getAWSConfig] fills it. *)
Record PartialConfig : Type := {
  p_ssoStartUrl : option string;
  p_ssoRegion : option string;
  p_ssoAccountId : option string;
  p_ssoRoleName : option string;
  p_region : option string;
}.

Record AWSSSOConfig : Type := {
  ssoStartUrl : string;
  ssoRegion : string;
  ssoAccountId : option string;
  ssoRoleName : option string;
  region : string;
  profile : option string;
}.

Definition emptyConfig : PartialConfig :=
  {| p_ssoStartUrl := None; p_ssoRegion := None; p_ssoAccountId := None;
     p_ssoRoleName := None; p_region := None |}.

(** [profile === 'default' ? '[default]' : `[profile ${profile}]`] *)
Definition profileSection (profile : string) : string :=
  if String.eqb profile "default" then "[default]"
  else "[profile " +:+ profile +:+ "]".

(** The [switch (key)] of the loop; [value] is [undefined] when the line
    gave one piece only. *)
Definition assign (config : PartialConfig) (key : string) (value : option string)
    : PartialConfig :=
  if String.eqb key "sso_start_url" then
    {| p_ssoStartUrl := value; p_ssoRegion := p_ssoRegion config;
       p_ssoAccountId := p_ssoAccountId config; p_ssoRoleName := p_ssoRoleName config;
       p_region := p_region config |}
  else if String.eqb key "sso_region" then
    {| p_ssoStartUrl := p_ssoStartUrl config; p_ssoRegion := value;
       p_ssoAccountId := p_ssoAccountId config; p_ssoRoleName := p_ssoRoleName config;
       p_region := p_region config |}
  else if String.eqb key "sso_account_id" then
    {| p_ssoStartUrl := p_ssoStartUrl config; p_ssoRegion := p_ssoRegion config;
       p_ssoAccountId := value; p_ssoRoleName := p_ssoRoleName config;
       p_region := p_region config |}
  else if String.eqb key "sso_role_name" then
    {| p_ssoStartUrl := p_ssoStartUrl config; p_ssoRegion := p_ssoRegion config;
       p_ssoAccountId := p_ssoAccountId config; p_ssoRoleName := value;
       p_region := p_region config |}
  else if String.eqb key "region" then
    {| p_ssoStartUrl := p_ssoStartUrl config; p_ssoRegion := p_ssoRegion config;
       p_ssoAccountId := p_ssoAccountId config; p_ssoRoleName := p_ssoRoleName config;
       p_region := value |}
  else config.

(** [const [key, value] = trimmedLine.split('=').map(s => s.trim())] and
    the [switch]. *)
Definition assignLine (config : PartialConfig) (trimmedLine : string) : PartialConfig :=
  match map trim (split "=" trimmedLine) with
  | key :: value :: _ => assign config key (Some value)
  | [key] => assign config key None
  | [] => config
  end.

(** The loop over the lines, with its [continue] and its [break]. *)
Fixpoint scan (section : string) (lines : list string) (inTargetProfile : bool)
    (config : PartialConfig) : PartialConfig :=
  match lines with
  | [] => config
  | line :: rest =>
      let trimmedLine := trim line in
      if String.eqb trimmedLine section then scan section rest true config
      else if startsWith "[" trimmedLine && inTargetProfile then config
      else if inTargetProfile && includes "=" trimmedLine
      then scan section rest inTargetProfile (assignLine config trimmedLine)
      else scan section rest inTargetProfile config
  end.

(** [if (config.ssoStartUrl && config.ssoRegion && config.region)
     return { ...config, profile }; return null] *)
Definition complete (config : PartialConfig) (profile : string) : option AWSSSOConfig :=
  match nonEmpty (p_ssoStartUrl config), nonEmpty (p_ssoRegion config),
        nonEmpty (p_region config) with
  | Some ssoStartUrl, Some ssoRegion, Some region =>
      Some {| ssoStartUrl := ssoStartUrl; ssoRegion := ssoRegion;
              ssoAccountId := p_ssoAccountId config;
              ssoRoleName := p_ssoRoleName config;
              region := region; profile := Some profile |}
  | _, _, _ => None
  end.

Definition configOf (configContent profile : string) : option AWSSSOConfig :=
  complete (scan (profileSection profile) (split newline configContent) false emptyConfig)
    profile.

(** [getAWSConfig(profile = 'default')]; [None] is [null]. *)
Definition getAWSConfig (profile : option string) : M Service (option AWSSSOConfig) :=
  let profile := default "default" profile in
  try_catch
    (configPath ← ask awsConfigPath;
     present ← fs_existsSync configPath;
     if present : bool
     then configContent ← fs_readFileSync configPath;
          mret (configOf configContent profile)
     else mret None)
    (fun _ =>
       _ ← console_error "Failed to read AWS config:";
       mret None).

(** *** Sessions and credentials *)

(** What these methods need beyond [World]: the standard error of a command
    that succeeded, and the credential providers called without a client
    configuration. *)
Record Sdk : Type := {
  stderrOf : string -> string;
  (** [fromIni({ profile })()] *)
  fromIniProfile : string -> Result AwsCredentialIdentity;
  (** [fromSSO({ ssoStartUrl, ssoRegion, ssoAccountId, ssoRoleName })()] *)
  fromSSODirect : string -> string -> option string -> option string ->
                  Result AwsCredentialIdentity;
}.

Inductive Step : Type :=
| Logged (msg : string)
| Warned (msg : string)
| Failed (msg : string)
| Executed (command : string)
| IniProfile (profile : string)
| SsoDirect (ssoStartUrl ssoRegion : string) (ssoAccountId ssoRoleName : option string).

(** A method of the service: it returns or throws, and leaves its steps. *)
Definition T (A : Type) : Type := World -> Sdk -> Result A * list Step.

#[global] Instance T_ret : MRet T := fun A a _ _ => (Ok a, []).
#[global] Instance T_bind : MBind T := fun A B k m w sdk =>
  match m w sdk with
  | (Ok a, t1) => match k a w sdk with (r, t2) => (r, t1 ++ t2) end
  | (Throw e, t1) => (Throw e, t1)
  end.

Definition raise {A} (e : exn) : T A := fun _ _ => (Throw e, []).

Definition attempt {A} (body : T A) (handler : exn -> T A) : T A :=
  fun w sdk =>
    match body w sdk with
    | (Ok a, t1) => (Ok a, t1)
    | (Throw e, t1) => match handler e w sdk with (r, t2) => (r, t1 ++ t2) end
    end.

Definition step (st : Step) : T unit := fun _ _ => (Ok tt, [st]).

(** [const { stdout, stderr } = await execAsync(command)] *)
Definition execBoth (command : string) : T (string * string) :=
  fun w sdk =>
    (match execAsync w command with
     | Ok stdout => Ok (stdout, stderrOf sdk command)
     | Throw e => Throw e
     end, [Executed command]).

Definition isAwsCliAvailable : T bool :=
  attempt
    (_ ← execBoth "aws --version"; mret true)
    (fun _ => mret false).

(** [profile ? `aws sts get-caller-identity --profile ${profile}`
             : 'aws sts get-caller-identity'] *)
Definition identityCommand (profile : option string) : string :=
  match nonEmpty profile with
  | Some profile => "aws sts get-caller-identity --profile " +:+ profile
  | None => "aws sts get-caller-identity"
  end.

Definition isSSOSessionActive (profile : option string) : T bool :=
  attempt
    (cli ← isAwsCliAvailable;
     if negb cli
     then raise (JsError "AWS CLI is not installed or not available in PATH")
     else _ ← execBoth (identityCommand profile); mret true)
    (fun _ =>
       _ ← step (Warned "SSO session not active:");
       mret false).

(** [profile ? `aws sso login --profile ${profile}` : 'aws sso login'] *)
Definition loginCommand (profile : option string) : string :=
  match nonEmpty profile with
  | Some profile => "aws sso login --profile " +:+ profile
  | None => "aws sso login"
  end.

Definition loginSSO (profile : option string) : T unit :=
  attempt
    (cli ← isAwsCliAvailable;
     if negb cli
     then raise (JsError "AWS CLI is not installed or not available in PATH. Please install AWS CLI first.")
     else
       let command := loginCommand profile in
       _ ← step (Logged ("Executing: " +:+ command));
       out ← execBoth command;
       if negb (String.eqb out.2 EmptyString) && includes "error" out.2
       then raise (JsError ("AWS SSO login failed: " +:+ out.2))
       else step (Logged "AWS SSO login successful:"))
    (fun error =>
       _ ← step (Failed "AWS SSO login failed:");
       raise (JsError ("AWS SSO login failed: " +:+ errorMessage error))).

(** [credentials.accessKeyId] and the like: [undefined] when absent. *)
Definition property (credentials : AwsCredentialIdentity) (name : string) : JsVal :=
  default JsUndefined (credentials !! name).

(** [{ accessKeyId, secretAccessKey, sessionToken, region: config.region }] *)
Definition withRegion (credentials : AwsCredentialIdentity) (region : string)
    : AwsCredentialIdentity :=
  <["accessKeyId" := property credentials "accessKeyId"]>
    (<["secretAccessKey" := property credentials "secretAccessKey"]>
       (<["sessionToken" := property credentials "sessionToken"]>
          (<["region" := JsString region]> ∅))).

Definition getSSOCredentials (config : AWSSSOConfig) : T AwsCredentialIdentity :=
  attempt
    (credentials ←
       match nonEmpty (profile config) with
       | Some profile =>
           (fun _ sdk => (fromIniProfile sdk profile, [IniProfile profile])) : T _
       | None =>
           (fun _ sdk =>
              (fromSSODirect sdk (ssoStartUrl config) (ssoRegion config)
                 (ssoAccountId config) (ssoRoleName config),
               [SsoDirect (ssoStartUrl config) (ssoRegion config)
                  (ssoAccountId config) (ssoRoleName config)])) : T _
       end;
     mret (withRegion credentials (region config)))
    (fun error =>
       _ ← step (Failed "Failed to get SSO credentials:");
       raise (JsError ("Failed to get SSO credentials: " +:+ errorMessage error))).

End AWSSSOService.

(** ** The configuration string of the Bedrock provider *)

Module Json.
Import Js.

(** The object that [JSON.parse(apiKey)] yields, read at the type the
    sources declare for it: an object, each property the parsers look at
    being [undefined] or a string. *)
Record ParsedConfig : Type := {
  authType : option string;
  region : option string;
  profile : option string;
  ssoStartUrl : option string;
  ssoRegion : option string;
  ssoAccountId : option string;
  ssoRoleName : option string;
  accessKeyId : option string;
  secretAccessKey : option string;
  sessionToken : option string;
}.

(** [JSON.parse]: the object, or the [SyntaxError]. *)
Definition Parser : Type := string -> Result ParsedConfig.

End Json.

(** *** amazon-bedrock.ts, static credentials or the credential chain
    (src/unnamed/part_000) *)

Module BedrockStatic.
Import Js.

Record AWSBedRockConfig : Type := {
  region : string;
  accessKeyId : option string;
  secretAccessKey : option string;
  sessionToken : option string;
}.

Definition invalidFormat : string :=
  "Invalid AWS Bedrock configuration format. Please provide a valid JSON string containing region and either explicit credentials (accessKeyId, secretAccessKey) or use AWS credential chain (SSO, environment variables, etc.).".
Definition missingRegion : string :=
  "Missing required AWS region. Configuration must include region.".
Definition incompleteStaticCredentials : string :=
  "When using explicit credentials, both accessKeyId and secretAccessKey are required.".

Section Parse.
Variable JSON_parse : Json.Parser.

Definition _parseAndValidateConfig (apiKey : string) : Result AWSBedRockConfig :=
  match JSON_parse apiKey with
  | Throw _ => Throw (JsError invalidFormat)
  | Ok parsedConfig =>
      let region := Json.region parsedConfig in
      let accessKeyId := Json.accessKeyId parsedConfig in
      let secretAccessKey := Json.secretAccessKey parsedConfig in
      let sessionToken := Json.sessionToken parsedConfig in
      match nonEmpty region with
      | None => Throw (JsError missingRegion)
      | Some region =>
          if (truthy accessKeyId || truthy secretAccessKey)
             && (negb (truthy accessKeyId) || negb (truthy secretAccessKey))
          then Throw (JsError incompleteStaticCredentials)
          else Ok {| region := region;
                     accessKeyId := nonEmpty accessKeyId;
                     secretAccessKey := nonEmpty secretAccessKey;
                     sessionToken := nonEmpty sessionToken |}
      end
  end.
End Parse.

Section Instance.
Variable JSON_parse : Json.Parser.

(** [serverEnv?.NAME || process.env.NAME] *)
Definition fromEnv (serverEnv : option (gmap string string))
    (process_env : gmap string string) (name : string) : option string :=
  or_else (serverEnv ≫= fun env => env !! name) (process_env !! name).

(** The configuration built from the environment when no configuration
    string is given (second copy of the class in src/unnamed/part_000). *)
Definition environmentConfig (serverEnv : option (gmap string string))
    (process_env : gmap string string) : AWSBedRockConfig :=
  let region := default "us-east-1" (nonEmpty (fromEnv serverEnv process_env "AWS_REGION")) in
  let accessKeyId := fromEnv serverEnv process_env "AWS_ACCESS_KEY_ID" in
  let secretAccessKey := fromEnv serverEnv process_env "AWS_SECRET_ACCESS_KEY" in
  let sessionToken := fromEnv serverEnv process_env "AWS_SESSION_TOKEN" in
  if truthy accessKeyId && truthy secretAccessKey
  then {| region := region; accessKeyId := accessKeyId;
          secretAccessKey := secretAccessKey;
          sessionToken := nonEmpty sessionToken |}
  else {| region := region; accessKeyId := None; secretAccessKey := None;
          sessionToken := None |}.

(** [getModelInstance]: the argument of [createAmazonBedrock] and the model
    asked of the provider it returns.  [apiKey] is what
    [getProviderBaseUrlAndKey] found. *)
Definition getModelInstance (apiKey : option string)
    (serverEnv : option (gmap string string)) (process_env : gmap string string)
    (model : string) : Result (AWSBedRockConfig * string) :=
  match nonEmpty apiKey with
  | Some key =>
      if (0 <? String.length (trim key))%nat
      then match _parseAndValidateConfig JSON_parse key with
           | Ok config => Ok (config, model)
           | Throw error => Throw error
           end
      else Ok (environmentConfig serverEnv process_env, model)
  | None => Ok (environmentConfig serverEnv process_env, model)
  end.
End Instance.

End BedrockStatic.

(** *** amazon-bedrock.ts, single sign-on or legacy static credentials
    (src/unnamed/part_001) *)

Module BedrockSSO.
Import Js.

Record AWSBedRockConfig : Type := {
  region : string;
  accessKeyId : string;
  secretAccessKey : string;
  sessionToken : option string;
}.

Record AWSSSORBedRockConfig : Type := {
  sso_authType : string;
  sso_profile : option string;
  sso_region : string;
  ssoStartUrl : option string;
  ssoRegion : option string;
  ssoAccountId : option string;
  ssoRoleName : option string;
}.

(** [AWSBedRockConfig | AWSSSORBedRockConfig] *)
Inductive Config : Type :=
| StaticConfig (c : AWSBedRockConfig)
| SSOConfig (c : AWSSSORBedRockConfig).

Definition invalidFormat : string :=
  "Invalid AWS Bedrock configuration format. Please provide a valid JSON string.".
Definition missingRegion : string :=
  "Missing required region for AWS configuration.".
Definition incompleteSSOConfig : string :=
  "AWS SSO configuration must include either a profile name or SSO details (ssoStartUrl, ssoRegion).".
Definition missingStaticCredentials : string :=
  "Missing required AWS credentials. Configuration must include region, accessKeyId, and secretAccessKey.".

(** [parsedConfig.authType === 'sso' || parsedConfig.authType === 'auto'] *)
Definition ssoOrAuto (authType : option string) : option string :=
  match authType with
  | Some a => if String.eqb a "sso" || String.eqb a "auto" then Some a else None
  | None => None
  end.

Section Parse.
Variable JSON_parse : Json.Parser.

Definition _parseAndValidateConfig (apiKey : string) : Result Config :=
  match JSON_parse apiKey with
  | Throw _ => Throw (JsError invalidFormat)
  | Ok parsedConfig =>
      match ssoOrAuto (Json.authType parsedConfig) with
      | Some authType =>
          let profile := Json.profile parsedConfig in
          let ssoStartUrl := Json.ssoStartUrl parsedConfig in
          let ssoRegion := Json.ssoRegion parsedConfig in
          match nonEmpty (Json.region parsedConfig) with
          | None => Throw (JsError missingRegion)
          | Some region =>
              if String.eqb authType "sso" && negb (truthy profile)
                 && (negb (truthy ssoStartUrl) || negb (truthy ssoRegion))
              then Throw (JsError incompleteSSOConfig)
              else Ok (SSOConfig
                         {| sso_authType := authType;
                            sso_region := region;
                            sso_profile := profile;
                            ssoStartUrl := ssoStartUrl;
                            ssoRegion := ssoRegion;
                            ssoAccountId := Json.ssoAccountId parsedConfig;
                            ssoRoleName := Json.ssoRoleName parsedConfig |})
          end
      | None =>
          match nonEmpty (Json.region parsedConfig),
                nonEmpty (Json.accessKeyId parsedConfig),
                nonEmpty (Json.secretAccessKey parsedConfig) with
          | Some region, Some accessKeyId, Some secretAccessKey =>
              Ok (StaticConfig
                    {| region := region;
                       accessKeyId := accessKeyId;
                       secretAccessKey := secretAccessKey;
                       sessionToken := nonEmpty (Json.sessionToken parsedConfig) |})
          | _, _, _ => Throw (JsError missingStaticCredentials)
          end
      end
  end.
End Parse.

Section Instance.
Variable JSON_parse : Json.Parser.

(** The argument of [createAmazonBedrock]: [bedrockOptions] with a region
    and a [credentials] function that closes over a configuration of the
    credential service, or the parsed configuration itself. *)
Inductive Settings : Type :=
| Credentialed (region : string)
    (credentialConfig : AWSCredentialService.AWSCredentialConfig)
| Plain (config : Config).

(** The [credentialConfig] of the [credentials] function. *)
Definition credentialConfigOf (config : AWSSSORBedRockConfig)
    : AWSCredentialService.AWSCredentialConfig :=
  {| AWSCredentialService.authType :=
       Some (if String.eqb (sso_authType config) "sso"
             then AWSCredentialService.Sso else AWSCredentialService.Auto);
     AWSCredentialService.region := sso_region config;
     AWSCredentialService.profile := sso_profile config;
     AWSCredentialService.ssoStartUrl := ssoStartUrl config;
     AWSCredentialService.ssoRegion := ssoRegion config;
     AWSCredentialService.ssoAccountId := ssoAccountId config;
     AWSCredentialService.ssoRoleName := ssoRoleName config;
     AWSCredentialService.accessKeyId := None;
     AWSCredentialService.secretAccessKey := None;
     AWSCredentialService.sessionToken := None;
     AWSCredentialService.roleArn := None;
     AWSCredentialService.externalId := None |}.

Definition getModelInstance (apiKey : option string) (model : string)
    : Result (Settings * string) :=
  match nonEmpty apiKey with
  | None => Throw (JsError "Missing API key for AmazonBedrock provider")
  | Some key =>
      match _parseAndValidateConfig JSON_parse key with
      | Throw error => Throw error
      | Ok (SSOConfig config) =>
          if String.eqb (sso_authType config) "sso"
             || String.eqb (sso_authType config) "auto"
          then Ok (Credentialed (sso_region config) (credentialConfigOf config), model)
          else Ok (Plain (SSOConfig config), model)
      | Ok (StaticConfig config) => Ok (Plain (StaticConfig config), model)
      end
  end.

(** [credentials: async () => awsCredentialService.getCredentials(credentialConfig)] *)
Definition credentials (settings : Settings)
    : option (Node.M AWSCredentialService.Service Node.AwsCredentialIdentity) :=
  match settings with
  | Credentialed _ credentialConfig =>
      Some (AWSCredentialService.getCredentials credentialConfig)
  | Plain _ => None
  end.
End Instance.

End BedrockSSO.

(** *** amazon-bedrock.ts, region from the server environment
    (src/unnamed/part_002) *)

Module BedrockEnvRegion.
Import Js.

Record AWSBedRockConfig : Type := {
  region : string;
  accessKeyId : option string;
  secretAccessKey : option string;
  sessionToken : option string;
}.

Definition invalidFormat : string :=
  "Invalid AWS Bedrock configuration format. Please provide a valid JSON string containing region, accessKeyId, and secretAccessKey.".
Definition missingRegion : string :=
  "Missing AWS region. Provide it in AWS_BEDROCK_CONFIG or set AWS_BEDROCK_REGION.".

Section Parse.
Variable JSON_parse : Json.Parser.

(** [parsedConfig.region || serverEnv.AWS_BEDROCK_REGION ||
     serverEnv.AWS_REGION || serverEnv.AWS_DEFAULT_REGION] *)
Definition regionOf (parsedConfig : Json.ParsedConfig)
    (serverEnv : gmap string string) : option string :=
  or_else (or_else (or_else (Json.region parsedConfig)
                            (serverEnv !! "AWS_BEDROCK_REGION"))
                   (serverEnv !! "AWS_REGION"))
          (serverEnv !! "AWS_DEFAULT_REGION").

Definition _parseAndValidateConfig (apiKey : string)
    (serverEnv : gmap string string) : Result AWSBedRockConfig :=
  match JSON_parse apiKey with
  | Throw _ => Throw (JsError invalidFormat)
  | Ok parsedConfig =>
      match nonEmpty (regionOf parsedConfig serverEnv) with
      | None => Throw (JsError missingRegion)
      | Some region =>
          Ok {| region := region;
                accessKeyId := nonEmpty (Json.accessKeyId parsedConfig);
                secretAccessKey := nonEmpty (Json.secretAccessKey parsedConfig);
                sessionToken := nonEmpty (Json.sessionToken parsedConfig) |}
      end
  end.
End Parse.

Section Instance.
Variable JSON_parse : Json.Parser.

(** The argument of [createAmazonBedrock]:
    [{ region, accessKeyId, secretAccessKey, sessionToken }] or
    [{ bedrockOptions: { region } }]. *)
Inductive Settings : Type :=
| Explicit (region accessKeyId secretAccessKey : string) (sessionToken : option string)
| OptionsOnly (region : string).

(** [apiKey && apiKey.length > 0 ? apiKey : '{}'] *)
Definition configString (apiKey : option string) : string :=
  match nonEmpty apiKey with
  | Some key => key
  | None => "{}"
  end.

Definition getModelInstance (apiKey : option string)
    (serverEnv : gmap string string) (model : string) : Result (Settings * string) :=
  match _parseAndValidateConfig JSON_parse (configString apiKey) serverEnv with
  | Throw error => Throw error
  | Ok config =>
      match nonEmpty (accessKeyId config), nonEmpty (secretAccessKey config) with
      | Some accessKeyId, Some secretAccessKey =>
          Ok (Explicit (region config) accessKeyId secretAccessKey (sessionToken config),
              model)
      | _, _ => Ok (OptionsOnly (region config), model)
      end
  end.
End Instance.

End BedrockEnvRegion.

(** ** Reading a run: strategies entered, messages thrown, headers *)

Module Trace.
Import Js Node AWSCredentialService.

(** The three strategies of [getCredentials]; each one announces itself
    on the console as its first step. *)
Inductive Strategy : Type := PlatformRole | LocalSSO | Fallback.

#[global] Instance Strategy_eq_dec : EqDecision Strategy.
Proof. solve_decision. Defined.

Definition strategyEntered (ev : Event) : option Strategy :=
  match ev with
  | ConsoleLog msg =>
      if String.eqb msg "Using production credential resolution" then Some PlatformRole
      else if String.eqb msg "Using development SSO credential resolution" then Some LocalSSO
      else if String.eqb msg "Using fallback credential resolution" then Some Fallback
      else None
  | _ => None
  end.

(** The strategies a run entered, in order. *)
Definition strategies (t : list Event) : list Strategy := omap strategyEntered t.

(** The branch [getCredentials] takes for an environment and a configuration. *)
Definition strategyFor (env : EnvironmentInfo) (config : AWSCredentialConfig) : Strategy :=
  if isProduction env then PlatformRole
  else if hasAwsCli env && isSso (authType config) then LocalSSO
  else Fallback.

(** A probe answers a boolean whatever the world does, leaves the instance
    alone and enters no strategy. *)
Definition total (probe : M Service bool) : Prop :=
  forall w s, exists b t, probe w s = (Ok b, s, t) /\ strategies t = [].

(** The message [getCredentials] throws for a failure of a strategy. *)
Definition resolutionFailed (error : exn) : exn :=
  JsError ("AWS credential resolution failed: " +:+ errorMessage error).

(** The message of a failed identity check in the platform-role strategy. *)
Definition validationFailed (error : exn) : exn :=
  JsError ("Credential validation failed: " +:+ errorMessage error).

(** The first line of the platform-role strategy on the console. *)
Definition production : string := "Using production credential resolution".

(** The strategy [getCredentials] runs once the environment is known. *)
Definition selected (env : EnvironmentInfo) (config : AWSCredentialConfig)
    : M Service AwsCredentialIdentity :=
  match strategyFor env config with
  | PlatformRole => getProductionCredentials config
  | LocalSSO => getDevelopmentSSOCredentials config
  | Fallback => getFallbackCredentials config
  end.

(** [line] is a well-formed section header that names the profile [name]:
    [[default]], or [[profile name]]. *)
Definition headerOf (name line : string) : Prop :=
  (trim line = "[default]" /\ name = "default")
  \/ trim line = "[profile " +:+ name +:+ "]".

(** Every name a parser of the configuration file returns comes from a
    well-formed header of the file. *)
Definition namesFromHeaders (profilesOf : string -> list string) : Prop :=
  forall configContent name,
    In name (profilesOf configContent) ->
    exists line, In line (split newline configContent) /\ headerOf name line.

End Trace.

(** ** Concrete hosts and configurations *)

Module Samples.
Import Js Node AWSCredentialService.

Definition noCredentials : exn :=
  JsError "Could not load credentials from any providers".

(** A bare host: no marker file, no AWS CLI, no metadata service, no
    credentials anywhere. *)
Definition bareHost : World := {|
  existsSync := fun _ => false;
  readFileSync := fun _ => Throw (JsError "ENOENT: no such file or directory");
  process_env := ∅;
  execAsync := fun _ => Throw (JsError "Command failed: aws --version");
  fetch := fun _ => Throw (JsError "fetch failed");
  awsConfigPath := "/home/dev/.aws/config";
  fromNodeProviderChain := fun _ => Throw noCredentials;
  fromIni := fun _ _ => Throw noCredentials;
  fromSSO := fun _ _ _ _ _ => Throw noCredentials;
  getCallerIdentity := fun _ _ => Throw (JsError "The security token included in the request is invalid.");
|}.

(** A developer machine with the AWS CLI and a configuration file. *)
Definition laptop (configContent : string) : World := {|
  existsSync := fun path => String.eqb path "/home/dev/.aws/config";
  readFileSync := fun path =>
    if String.eqb path "/home/dev/.aws/config" then Ok configContent
    else Throw (JsError "ENOENT: no such file or directory");
  process_env := ∅;
  execAsync := fun _ => Ok "aws-cli/2.15.0";
  fetch := fun _ => Throw (JsError "fetch failed");
  awsConfigPath := "/home/dev/.aws/config";
  fromNodeProviderChain := fun _ => Throw noCredentials;
  fromIni := fun _ _ => Throw noCredentials;
  fromSSO := fun _ _ _ _ _ => Throw noCredentials;
  getCallerIdentity := fun _ _ => Throw (JsError "The security token included in the request is invalid.");
|}.

Definition taskRole : AwsCredentialIdentity :=
  <["accessKeyId" := JsString "ASIATASK"]>
    (<["secretAccessKey" := JsString "task-secret"]>
       (<["sessionToken" := JsString "task-token"]> ∅)).

Definition taskIdentity : CallerIdentity := {|
  Account := Some "123456789012";
  Arn := Some "arn:aws:sts::123456789012:assumed-role/task/1";
  UserId := Some "AROATASK:1";
|}.

(** A container of an ECS task; [valid] says whether STS accepts the
    credentials of the task role. *)
Definition ecsTask (valid : bool) : World := {|
  existsSync := fun path => String.eqb path "/.dockerenv";
  readFileSync := fun _ => Throw (JsError "ENOENT: no such file or directory");
  process_env := {[ "ECS_CONTAINER_METADATA_URI_V4" := "http://169.254.170.2/v4/1" ]};
  execAsync := fun _ => Throw (JsError "Command failed: aws --version");
  fetch := fun _ => Throw (JsError "fetch failed");
  awsConfigPath := "/root/.aws/config";
  fromNodeProviderChain := fun _ => Ok taskRole;
  fromIni := fun _ _ => Throw noCredentials;
  fromSSO := fun _ _ _ _ _ => Throw noCredentials;
  getCallerIdentity := fun _ _ =>
    if valid then Ok taskIdentity else Throw (JsError "ExpiredToken");
|}.

(** [{ region, accessKeyId, secretAccessKey }], with [authType] as given. *)
Definition staticConfig (authType : option AuthType)
    (region accessKeyId secretAccessKey : string) : AWSCredentialConfig := {|
  authType := authType; region := region; profile := None;
  ssoStartUrl := None; ssoRegion := None; ssoAccountId := None; ssoRoleName := None;
  accessKeyId := Some accessKeyId; secretAccessKey := Some secretAccessKey;
  sessionToken := None; roleArn := None; externalId := None;
|}.

(** [{ authType: 'sso', region }] *)
Definition ssoConfig (region : string) : AWSCredentialConfig := {|
  authType := Some Sso; region := region; profile := None;
  ssoStartUrl := None; ssoRegion := None; ssoAccountId := None; ssoRoleName := None;
  accessKeyId := None; secretAccessKey := None; sessionToken := None;
  roleArn := None; externalId := None;
|}.

Definition emptyObject : Json.ParsedConfig := {|
  Json.authType := None; Json.region := None; Json.profile := None;
  Json.ssoStartUrl := None; Json.ssoRegion := None; Json.ssoAccountId := None;
  Json.ssoRoleName := None; Json.accessKeyId := None;
  Json.secretAccessKey := None; Json.sessionToken := None;
|}.

(** A [JSON.parse] that knows one text. *)
Definition parses (text : string) (object : Json.ParsedConfig) : Json.Parser :=
  fun s => if String.eqb s text then Ok object
           else Throw (JsError "SyntaxError: Unexpected token").

(** JSON text: a quoted string, a member, an object of members. *)
Definition quoted (s : string) : string :=
  String (ascii_of_nat 34) (s +:+ String (ascii_of_nat 34) EmptyString).
Definition member (key value : string) : string :=
  quoted key +:+ ":" +:+ quoted value.
Fixpoint members (ms : list string) : string :=
  match ms with
  | [] => EmptyString
  | [m] => m
  | m :: rest => m +:+ "," +:+ members rest
  end.
Definition object (ms : list string) : string := "{" +:+ members ms +:+ "}".

(** The object with only [accessKeyId], and its text. *)
Definition accessKeyOnly : Json.ParsedConfig := {|
  Json.authType := None; Json.region := None; Json.profile := None;
  Json.ssoStartUrl := None; Json.ssoRegion := None; Json.ssoAccountId := None;
  Json.ssoRoleName := None; Json.accessKeyId := Some "AKIA1";
  Json.secretAccessKey := None; Json.sessionToken := None;
|}.
Definition accessKeyOnlyText : string := object [member "accessKeyId" "AKIA1"].

(** A region and [accessKeyId], no [secretAccessKey]. *)
Definition regionAndAccessKey : Json.ParsedConfig := {|
  Json.authType := None; Json.region := Some "us-east-1"; Json.profile := None;
  Json.ssoStartUrl := None; Json.ssoRegion := None; Json.ssoAccountId := None;
  Json.ssoRoleName := None; Json.accessKeyId := Some "AKIA1";
  Json.secretAccessKey := None; Json.sessionToken := None;
|}.
Definition regionAndAccessKeyText : string :=
  object [member "region" "us-east-1"; member "accessKeyId" "AKIA1"].

(** [authType = 'sso'] and nothing else. *)
Definition ssoOnly : Json.ParsedConfig := {|
  Json.authType := Some "sso"; Json.region := None; Json.profile := None;
  Json.ssoStartUrl := None; Json.ssoRegion := None; Json.ssoAccountId := None;
  Json.ssoRoleName := None; Json.accessKeyId := None;
  Json.secretAccessKey := None; Json.sessionToken := None;
|}.
Definition ssoOnlyText : string := object [member "authType" "sso"].

(** [authType = 'sso'] and a region. *)
Definition ssoAndRegion : Json.ParsedConfig := {|
  Json.authType := Some "sso"; Json.region := Some "us-west-2"; Json.profile := None;
  Json.ssoStartUrl := None; Json.ssoRegion := None; Json.ssoAccountId := None;
  Json.ssoRoleName := None; Json.accessKeyId := None;
  Json.secretAccessKey := None; Json.sessionToken := None;
|}.
Definition ssoAndRegionText : string :=
  object [member "authType" "sso"; member "region" "us-west-2"].

(** A configuration file whose only header lacks its closing bracket. *)
Definition unclosedHeader : string :=
  "[profile dev" +:+ String newline "region = us-west-1".

End Samples.

(** ** The routes over the credential service *)

Module Routes.
Import Js Node.
Module CS := AWSCredentialService.

(** The part of a [Request] the actions read: the method, and the outcome
    of [request.json()]. *)
Record Request (J : Type) : Type := {
  method : string;
  json : Result J;
}.
Arguments method {J} _.
Arguments json {J} _.

(** [json(body, { status })]; the status is 200 when none is given. *)
Record Response (B : Type) : Type := {
  status : nat;
  body : B;
}.
Arguments status {B} _.
Arguments body {B} _.

(** [await request.json()] *)
Definition await {S A} (outcome : Result A) : M S A :=
  fun _ s => (outcome, s, []).


(** *** POST /api/aws-sso/status (src/unnamed/part_003) *)

Record StatusRequest : Type := {
  sr_region : string;
  sr_authType : option CS.AuthType;
  sr_profile : option string;
  sr_ssoStartUrl : option string;
  sr_ssoRegion : option string;
  sr_ssoAccountId : option string;
  sr_ssoRoleName : option string;
}.

Inductive StatusBody : Type :=
| StatusMethodNotAllowed
| StatusReport (report : CS.CredentialStatus) (environment : CS.EnvironmentInfo)
| StatusFailure (error : string).

Definition statusConfig (requestData : StatusRequest) : CS.AWSCredentialConfig :=
  {| CS.authType := Some (default CS.Auto (sr_authType requestData));
     CS.region := sr_region requestData;
     CS.profile := sr_profile requestData;
     CS.ssoStartUrl := sr_ssoStartUrl requestData;
     CS.ssoRegion := sr_ssoRegion requestData;
     CS.ssoAccountId := sr_ssoAccountId requestData;
     CS.ssoRoleName := sr_ssoRoleName requestData;
     CS.accessKeyId := None; CS.secretAccessKey := None; CS.sessionToken := None;
     CS.roleArn := None; CS.externalId := None |}.

Definition statusAction (request : Request StatusRequest)
    : M CS.Service (Response StatusBody) :=
  if negb (String.eqb (method request) "POST")
  then mret {| status := 405; body := StatusMethodNotAllowed |}
  else
    try_catch
      (requestData ← await (json request);
       report ← CS.checkCredentialStatus (statusConfig requestData);
       environment ← CS.detectEnvironment;
       mret {| status := 200; body := StatusReport report environment |})
      (fun error =>
         _ ← console_error "AWS credential status check error:";
         mret {| status := 500;
                 body := StatusFailure
                           match error with
                           | JsError message => message
                           | JsThrown => "Unknown error during AWS credential status check"
                           end |}).

(** *** POST /api/aws-sso/profiles (src/unnamed/part_004) *)



(** *** POST /api/aws-sso/login (app/routes/api.aws-sso.login.ts) *)

Record LoginRequest : Type := {
  lr_profile : option string;
}.

Inductive LoginBody : Type :=
| LoginMethodNotAllowed
| LoginRefused (error : string) (environment : CS.EnvironmentInfo)
| LoginInitiated (message : string) (environment : CS.EnvironmentInfo)
| LoginFailure (error : string).

Definition loginAction (request : Request LoginRequest)
    : M CS.Service (Response LoginBody) :=
  if negb (String.eqb (method request) "POST")
  then mret {| status := 405; body := LoginMethodNotAllowed |}
  else
    try_catch
      (requestData ← await (json request);
       environment ← CS.detectEnvironment;
       if CS.isContainer environment
       then mret {| status := 400;
                    body := LoginRefused
                      "SSO login is not available in container environments. Use IAM roles for production."
                      environment |}
       else if negb (CS.hasAwsCli environment)
       then mret {| status := 400;
                    body := LoginRefused
                      "AWS CLI is not available. Install AWS CLI for SSO login in development environments."
                      environment |}
       else
         _ ← CS.initiateSSORLogin (lr_profile requestData);
         mret {| status := 200;
                 body := LoginInitiated "AWS SSO login initiated successfully"
                           environment |})
      (fun error =>
         _ ← console_error "AWS SSO login error:";
         mret {| status := 500;
                 body := LoginFailure
                           match error with
                           | JsError message => message
                           | JsThrown => "Unknown error during AWS SSO login"
                           end |}).

(** *** POST /api/aws-sso/status, earlier revision
    (app/routes/api.aws-sso.status.ts) *)





End Routes.

(** ** What detection reads of the world *)

Module Probes.
Import Js Node.

(** What each probe answers, read off the world: a failure of the file
    system, of the sub-process or of the request is the answer [false]. *)
Definition containerAnswer (w : World) : bool :=
  existsSync w "/.dockerenv"
  || (existsSync w "/proc/1/cgroup"
      && match readFileSync w "/proc/1/cgroup" with
         | Ok content => includes "docker" content
         | Throw _ => false
         end).

Definition ecsAnswer (w : World) : bool :=
  match process_env w !! "AWS_EXECUTION_ENV" with
  | Some v => includes "ECS" v
  | None => false
  end
  || truthy (process_env w !! "ECS_CONTAINER_METADATA_URI")
  || truthy (process_env w !! "ECS_CONTAINER_METADATA_URI_V4").

Definition eksAnswer (w : World) : bool :=
  existsSync w "/var/run/secrets/kubernetes.io/serviceaccount/token"
  && truthy (process_env w !! "KUBERNETES_SERVICE_HOST").

Definition cliAnswer (w : World) : bool :=
  match execAsync w "aws --version" with
  | Ok _ => true
  | Throw _ => false
  end.

Definition roleAnswer (w : World) : bool :=
  match fetch w "http://169.254.169.254/latest/meta-data/iam/security-credentials/" with
  | Ok ok => ok
  | Throw _ => false
  end.

(** The events of detection: probes of the host and one console line; no
    call to a credential provider or to STS. *)
Definition probing (ev : Event) : bool :=
  match ev with
  | FsExistsSync _ | FsReadFileSync _ | ExecAsync _ | Fetch _ => true
  | ConsoleLog msg => String.eqb msg "AWS Environment Detection:"
  | _ => false
  end.

End Probes.

(** ** More hosts *)

Module MoreSamples.
Import Js Node AWSCredentialService.

(** A developer machine with the AWS CLI whose SSO session cannot be
    opened: only [aws --version] succeeds. *)
Definition laptopOffline : World := {|
  existsSync := fun _ => false;
  readFileSync := fun _ => Throw (JsError "ENOENT: no such file or directory");
  process_env := ∅;
  execAsync := fun command =>
    if String.eqb command "aws --version" then Ok "aws-cli/2.15.0"
    else Throw (JsError "Command failed: network unreachable");
  fetch := fun _ => Throw (JsError "fetch failed");
  awsConfigPath := "/home/dev/.aws/config";
  fromNodeProviderChain := fun _ => Throw Samples.noCredentials;
  fromIni := fun _ _ => Throw Samples.noCredentials;
  fromSSO := fun _ _ _ _ _ => Throw Samples.noCredentials;
  getCallerIdentity := fun _ _ => Throw (JsError "ExpiredToken");
|}.

(** A developer machine, not a container, that carries the ECS metadata
    variable; static keys are accepted by STS. *)
Definition laptopWithEcsVariable : World := {|
  existsSync := fun _ => false;
  readFileSync := fun _ => Throw (JsError "ENOENT: no such file or directory");
  process_env := {[ "ECS_CONTAINER_METADATA_URI" := "http://169.254.170.2/v3" ]};
  execAsync := fun _ => Ok "aws-cli/2.15.0";
  fetch := fun _ => Throw (JsError "fetch failed");
  awsConfigPath := "/home/dev/.aws/config";
  fromNodeProviderChain := fun _ => Throw Samples.noCredentials;
  fromIni := fun _ _ => Throw Samples.noCredentials;
  fromSSO := fun _ _ _ _ _ => Throw Samples.noCredentials;
  getCallerIdentity := fun _ _ => Ok Samples.taskIdentity;
|}.

(** [{ authType: 'sso', region, profile }] *)
Definition profileConfig (region profile : string) : AWSCredentialConfig := {|
  authType := Some Sso; region := region; profile := Some profile;
  ssoStartUrl := Some "https://ignored.awsapps.com/start"; ssoRegion := None;
  ssoAccountId := None; ssoRoleName := None;
  accessKeyId := None; secretAccessKey := None; sessionToken := None;
  roleArn := None; externalId := None;
|}.

End MoreSamples.

(** ** Kinds of events *)

Module Kinds.
Import Js Node.

(** The live identity check. *)
Definition identityCheck (ev : Event) : bool :=
  match ev with
  | StsGetCallerIdentity _ _ => true
  | _ => false
  end.

(** A request to a credential provider of the SDK. *)
Definition providerCall (ev : Event) : bool :=
  match ev with
  | NodeProviderChain _ | Ini _ _ | SSO _ _ _ _ _ => true
  | _ => false
  end.

(** The outcome of a strategy as [getCredentials] hands it to its caller. *)
Definition surfaced {A} (r : Result A) : Result A :=
  match r with
  | Ok a => Ok a
  | Throw e => Throw (JsError ("AWS credential resolution failed: " +:+ errorMessage e))
  end.

End Kinds.

Module MoreConfigs.
Import Js Node AWSCredentialService.

(** [{ region }] *)
Definition regionOnlyConfig (region : string) : AWSCredentialConfig := {|
  authType := None; region := region; profile := None;
  ssoStartUrl := None; ssoRegion := None; ssoAccountId := None; ssoRoleName := None;
  accessKeyId := None; secretAccessKey := None; sessionToken := None;
  roleArn := None; externalId := None;
|}.

End MoreConfigs.

(** ** A configuration file with two profiles *)

Module SsoSamples.
Import Js Node.

Definition lines (ls : list string) : string :=
  String.concat (String newline EmptyString) ls.

(** The file of the tests of [AWSSSOService.getAWSConfig]. *)
Definition testConfigLines : list string :=
  [ "[default]"; "region = us-east-1"; EmptyString;
    "[profile test-sso]";
    "sso_start_url = https://test.awsapps.com/start";
    "sso_region = us-east-1";
    "sso_account_id = 123456789012";
    "sso_role_name = TestRole";
    "region = us-west-2";
    "[profile other]";
    "region = eu-west-1" ].

Definition testConfig : string := lines testConfigLines.

End SsoSamples.

Module MoreObjects.
Import Js.

(** [{ authType: 'auto', region: 'us-west-2' }] and its text. *)
Definition autoAndRegion : Json.ParsedConfig := {|
  Json.authType := Some "auto"; Json.region := Some "us-west-2"; Json.profile := None;
  Json.ssoStartUrl := None; Json.ssoRegion := None; Json.ssoAccountId := None;
  Json.ssoRoleName := None; Json.accessKeyId := None;
  Json.secretAccessKey := None; Json.sessionToken := None;
|}.
Definition autoAndRegionText : string :=
  Samples.object [Samples.member "authType" "auto"; Samples.member "region" "us-west-2"].

End MoreObjects.

(** * Properties *)

Import Js Node.

(** ** Running a method *)

(** Unfolds the monadic operations so that a run becomes a case analysis
    on the answers of the world. *)
Ltac run :=
  unfold console_log, console_error, fs_existsSync,
    fs_readFileSync, getenv, exec, fetch_ok, result, instance, trace in *;
  unfold mbind, mret, M_bind, M_ret, bind, ret, try_catch, throw, call, emit,
    ask, get, put in *;
  cbn beta iota zeta in *.

Lemma nonEmpty_truthy (v : option string) : truthy v = true -> nonEmpty v = v.
Proof. intros H. unfold nonEmpty. rewrite H. reflexivity. Qed.

Lemma nonEmpty_falsy (v : option string) : truthy v = false -> nonEmpty v = None.
Proof. intros H. unfold nonEmpty. rewrite H. reflexivity. Qed.

Section Bind.
Context {S A B : Type}.

Lemma bind_ok (m : M S A) (k : A -> M S B) w s a s1 t1 :
  m w s = (Ok a, s1, t1) ->
  (m ≫= k) w s = (let '(r, s2, t2) := k a w s1 in (r, s2, t1 ++ t2)).
Proof. intros Hm. run. rewrite Hm. reflexivity. Qed.

Lemma bind_throw (m : M S A) (k : A -> M S B) w s e s1 t1 :
  m w s = (Throw e, s1, t1) ->
  (m ≫= k) w s = (Throw e, s1, t1).
Proof. intros Hm. run. rewrite Hm. reflexivity. Qed.
End Bind.

(** ** Environment detection *)

Module DetectFacts.
Import AWSCredentialService Trace.

Lemma isRunningInContainer_total : total isRunningInContainer.
Proof.
  intros w s. unfold isRunningInContainer. run.
  destruct (existsSync w "/.dockerenv"); [eauto|].
  destruct (existsSync w "/proc/1/cgroup"); [|eauto].
  destruct (readFileSync w "/proc/1/cgroup"); eauto.
Qed.

Lemma isRunningInECS_total : total isRunningInECS.
Proof.
  intros w s. unfold isRunningInECS. run.
  destruct (process_env w !! "AWS_EXECUTION_ENV") as [v|];
    [destruct (includes "ECS" v); [eauto|]|];
    (destruct (truthy (process_env w !! "ECS_CONTAINER_METADATA_URI")); eauto).
Qed.

Lemma isRunningInEKS_total : total isRunningInEKS.
Proof.
  intros w s. unfold isRunningInEKS. run.
  destruct (existsSync w _); eauto.
Qed.

Lemma isAwsCliAvailable_total : total isAwsCliAvailable.
Proof.
  intros w s. unfold isAwsCliAvailable. run.
  destruct (execAsync w _); eauto.
Qed.

Lemma hasIamRoleAttached_total : total hasIamRoleAttached.
Proof.
  intros w s. unfold hasIamRoleAttached. run.
  destruct (fetch w _); eauto.
Qed.

Lemma strategies_app t1 t2 : strategies (t1 ++ t2) = strategies t1 ++ strategies t2.
Proof. apply omap_app. Qed.

(** [detectEnvironment] never throws, leaves its answer in the cache and
    enters no strategy. *)
Lemma detectEnvironment_total w s :
  exists info t,
    detectEnvironment w s = (Ok info, {| environmentInfo := Some info |}, t)
    /\ strategies t = [].
Proof.
  unfold detectEnvironment.
  destruct s as [[cached|]].
  - exists cached, []. split; reflexivity.
  - destruct (isRunningInContainer_total w fresh) as (b1 & t1 & H1 & Q1).
    destruct (isRunningInECS_total w fresh) as (b2 & t2 & H2 & Q2).
    destruct (isRunningInEKS_total w fresh) as (b3 & t3 & H3 & Q3).
    destruct (isAwsCliAvailable_total w fresh) as (b4 & t4 & H4 & Q4).
    destruct (hasIamRoleAttached_total w fresh) as (b5 & t5 & H5 & Q5).
    unfold fresh in *.
    erewrite bind_ok by reflexivity. cbn [environmentInfo].
    erewrite bind_ok by exact H1.
    erewrite bind_ok by exact H2.
    erewrite bind_ok by exact H3.
    erewrite bind_ok by exact H4.
    erewrite bind_ok by exact H5.
    run. do 2 eexists. split; [reflexivity|].
    rewrite !strategies_app, Q1, Q2, Q3, Q4, Q5. reflexivity.
Qed.

(** With a filled cache the world is not consulted. *)
Lemma detectEnvironment_cached w info :
  detectEnvironment w {| environmentInfo := Some info |}
  = (Ok info, {| environmentInfo := Some info |}, []).
Proof. reflexivity. Qed.

End DetectFacts.

(** The cache is sticky: detection on a bare host, then in the container of
    an ECS task, still answers for the bare host. *)
Example detectEnvironment_sticky :
  AWSCredentialService.detectEnvironment (Samples.ecsTask true)
    (instance (AWSCredentialService.detectEnvironment Samples.bareHost
                 AWSCredentialService.fresh))
  = (Ok {| AWSCredentialService.isContainer := false;
           AWSCredentialService.isECS := false;
           AWSCredentialService.isEKS := false;
           AWSCredentialService.hasAwsCli := false;
           AWSCredentialService.hasIamRole := false |},
     instance (AWSCredentialService.detectEnvironment Samples.bareHost
                 AWSCredentialService.fresh),
     []).
Proof. reflexivity. Qed.

(** C8. [detectEnvironment] is idempotent on one instance: after a first
    call, made in any world [w1], a second call made in any other world [w2]
    returns exactly the [EnvironmentInfo] of the first, leaves the instance
    as it is, and its trace is empty: no file, sub-process or network probe
    runs and nothing of [w2] is read. *)
Theorem detectEnvironment_idempotent (w1 w2 : World) (s : AWSCredentialService.Service) :
  exists info,
    result (AWSCredentialService.detectEnvironment w1 s) = Ok info /\
    AWSCredentialService.detectEnvironment w2
      (instance (AWSCredentialService.detectEnvironment w1 s))
    = (Ok info, instance (AWSCredentialService.detectEnvironment w1 s), []).
Proof.
  destruct (DetectFacts.detectEnvironment_total w1 s) as (info & t & H & _).
  exists info. rewrite H. split; [reflexivity|].
  apply DetectFacts.detectEnvironment_cached.
Qed.

(** ** Credential resolution *)

Module ResolverFacts.
Import AWSCredentialService Trace.

(** The three possible runs of the platform-role strategy. *)
Lemma getProductionCredentials_run config w s :
  getProductionCredentials config w s =
  match fromNodeProviderChain w (region config) with
  | Throw e =>
      (Throw e, s, [ConsoleLog production; NodeProviderChain (region config)])
  | Ok c =>
      match getCallerIdentity w (region config) c with
      | Ok _ =>
          (Ok c, s, [ConsoleLog production; NodeProviderChain (region config);
                     StsGetCallerIdentity (region config) c;
                     ConsoleLog "AWS credentials validated successfully"])
      | Throw e =>
          (Throw (validationFailed e), s,
           [ConsoleLog production; NodeProviderChain (region config);
            StsGetCallerIdentity (region config) c])
      end
  end.
Proof.
  unfold getProductionCredentials, validateCredentials. run.
  destruct (fromNodeProviderChain w (region config)) as [c|e]; [|reflexivity].
  destruct (getCallerIdentity w (region config) c); reflexivity.
Qed.

Lemma getProductionCredentials_strategies config w s :
  exists r t, getProductionCredentials config w s = (r, s, t)
              /\ strategies t = [PlatformRole].
Proof.
  rewrite getProductionCredentials_run.
  destruct (fromNodeProviderChain w (region config)) as [c|e]; [|eauto].
  destruct (getCallerIdentity w (region config) c); eauto.
Qed.

Lemma getDevelopmentSSOCredentials_strategies config w s :
  exists r t, getDevelopmentSSOCredentials config w s = (r, s, t)
              /\ strategies t = [LocalSSO].
Proof.
  unfold getDevelopmentSSOCredentials. run.
  destruct (nonEmpty (profile config)) as [p|].
  - destruct (fromIni w p (region config)); eauto.
  - destruct (nonEmpty (ssoStartUrl config)) as [u|]; [|eauto].
    destruct (fromSSO w u _ _ _ _); eauto.
Qed.

Lemma getFallbackCredentials_strategies config w s :
  exists r t, getFallbackCredentials config w s = (r, s, t)
              /\ strategies t = [Fallback].
Proof.
  unfold getFallbackCredentials. run.
  destruct (nonEmpty (accessKeyId config)) as [a|],
           (nonEmpty (secretAccessKey config)) as [k|]; eauto;
    destruct (fromNodeProviderChain w (region config)); eauto.
Qed.

Lemma selected_strategies env config w s :
  exists r t, selected env config w s = (r, s, t)
              /\ strategies t = [strategyFor env config].
Proof.
  unfold selected. destruct (strategyFor env config).
  - apply getProductionCredentials_strategies.
  - apply getDevelopmentSSOCredentials_strategies.
  - apply getFallbackCredentials_strategies.
Qed.

(** [getCredentials] is detection followed by the selected strategy, whose
    failure is logged and rethrown with the resolution prefix. *)
Lemma getCredentials_run config w s info s1 t0 :
  detectEnvironment w s = (Ok info, s1, t0) ->
  getCredentials config w s =
  match selected info config w s1 with
  | (Ok c, s2, t) => (Ok c, s2, t0 ++ t)
  | (Throw e, s2, t) =>
      (Throw (resolutionFailed e), s2,
       t0 ++ t ++ [ConsoleError "Failed to get AWS credentials:"])
  end.
Proof.
  intros Hd. unfold getCredentials. erewrite bind_ok by exact Hd.
  unfold selected, strategyFor.
  destruct (isProduction info); [|destruct (hasAwsCli info && isSso (authType config))];
    run;
    match goal with
    | |- context [?strategy config w s1] =>
        destruct (strategy config w s1) as [[[c|e] s2] t]; reflexivity
    end.
Qed.

(** Exactly one strategy is entered per call, the one the environment and
    the configuration select. *)
Lemma getCredentials_strategies config w s info :
  result (detectEnvironment w s) = Ok info ->
  strategies (trace (getCredentials config w s)) = [strategyFor info config].
Proof.
  intros Hr.
  destruct (DetectFacts.detectEnvironment_total w s) as (info' & t0 & Hd & Q0).
  rewrite Hd in Hr. injection Hr as ->.
  rewrite (getCredentials_run _ _ _ _ _ _ Hd).
  destruct (selected_strategies info config w {| environmentInfo := Some info |})
    as (r & t & Hs & Q).
  rewrite Hs. destruct r; unfold trace; cbn [snd];
    rewrite !DetectFacts.strategies_app, Q0, Q; reflexivity.
Qed.

End ResolverFacts.

Module ProductionFacts.
Import AWSCredentialService Trace.

(** What the caller of [getCredentials] sees of the platform-role
    strategy: the credential of the provider chain once the identity check
    has accepted it, and otherwise the failure. *)
Lemma getCredentials_production_result config w s info :
  result (detectEnvironment w s) = Ok info ->
  isProduction info = true ->
  result (getCredentials config w s) =
  match fromNodeProviderChain w (region config) with
  | Throw e => Throw (resolutionFailed e)
  | Ok c =>
      match getCallerIdentity w (region config) c with
      | Ok _ => Ok c
      | Throw e => Throw (resolutionFailed (validationFailed e))
      end
  end.
Proof.
  intros Hr Hp.
  destruct (DetectFacts.detectEnvironment_total w s) as (info' & t0 & Hd & _).
  rewrite Hd in Hr. injection Hr as ->.
  rewrite (ResolverFacts.getCredentials_run _ _ _ _ _ _ Hd).
  unfold selected, strategyFor. rewrite Hp.
  rewrite ResolverFacts.getProductionCredentials_run.
  destruct (fromNodeProviderChain w (region config)) as [c|e]; [|reflexivity].
  destruct (getCallerIdentity w (region config) c); reflexivity.
Qed.

Lemma strategyFor_production info config :
  strategyFor info config = PlatformRole <-> isProduction info = true.
Proof.
  unfold strategyFor. destruct (isProduction info).
  - tauto.
  - destruct (hasAwsCli info && isSso (authType config)); split; discriminate.
Qed.

End ProductionFacts.

Import AWSCredentialService Trace Samples.

(** C1. In every environment that detection reports as a container with
    ECS, EKS or an attached IAM role, [getCredentials] enters the
    platform-role strategy and no other, for every configuration, also one
    with [authType = 'static'] and both keys.  What it returns is the
    credential of the provider chain (after the identity check) or a
    failure: the keys of the configuration are not returned. *)
Theorem getCredentials_platform_role_first
    (w : World) (s : Service) (config : AWSCredentialConfig) (info : EnvironmentInfo) :
  result (detectEnvironment w s) = Ok info ->
  isContainer info = true ->
  isECS info || isEKS info || hasIamRole info = true ->
  strategies (trace (getCredentials config w s)) = [PlatformRole] /\
  result (getCredentials config w s) =
    match fromNodeProviderChain w (region config) with
    | Throw e => Throw (resolutionFailed e)
    | Ok c =>
        match getCallerIdentity w (region config) c with
        | Ok _ => Ok c
        | Throw e => Throw (resolutionFailed (validationFailed e))
        end
    end.
Proof.
  intros Hr Hc Hrole.
  assert (Hp : isProduction info = true)
    by (unfold isProduction; rewrite Hc, Hrole; reflexivity).
  split.
  - rewrite (ResolverFacts.getCredentials_strategies _ _ _ _ Hr).
    f_equal. apply (ProductionFacts.strategyFor_production info config), Hp.
  - apply ProductionFacts.getCredentials_production_result with (info := info);
      assumption.
Qed.

Lemma getCredentials_platform_role_first_witness :
  strategies (trace (getCredentials (staticConfig (Some Static) "us-east-1" "AKIA1" "s1")
                       (ecsTask true) fresh)) = [PlatformRole] /\
  result (getCredentials (staticConfig (Some Static) "us-east-1" "AKIA1" "s1")
            (ecsTask true) fresh) = Ok taskRole.
Proof.
  apply (getCredentials_platform_role_first (ecsTask true) fresh
           (staticConfig (Some Static) "us-east-1" "AKIA1" "s1")
           {| isContainer := true; isECS := true; isEKS := false;
              hasAwsCli := false; hasIamRole := false |});
    reflexivity.
Defined.

(** C2. A call of [getCredentials] that entered the platform-role strategy
    enters no other strategy.  If the provider chain gave a credential and
    the identity check on it failed, the call throws, and the message is
    the validation failure under the resolution prefix.  If the call
    returns a credential, it is the one of the provider chain and the
    identity check accepted it. *)
Theorem platform_role_validation_failure_is_fatal
    (w : World) (s : Service) (config : AWSCredentialConfig) :
  In PlatformRole (strategies (trace (getCredentials config w s))) ->
  strategies (trace (getCredentials config w s)) = [PlatformRole] /\
  (forall c e,
      fromNodeProviderChain w (region config) = Ok c ->
      getCallerIdentity w (region config) c = Throw e ->
      result (getCredentials config w s)
      = Throw (JsError ("AWS credential resolution failed: Credential validation failed: "
                        +:+ errorMessage e))) /\
  (forall c,
      result (getCredentials config w s) = Ok c ->
      fromNodeProviderChain w (region config) = Ok c /\
      exists identity, getCallerIdentity w (region config) c = Ok identity).
Proof.
  intros Hin.
  destruct (DetectFacts.detectEnvironment_total w s) as (info & t0 & Hd & _).
  assert (Hr : result (detectEnvironment w s) = Ok info) by (rewrite Hd; reflexivity).
  pose proof (ResolverFacts.getCredentials_strategies config w s info Hr) as Hs.
  rewrite Hs in Hin. destruct Hin as [Hsel|[]].
  assert (Hp : isProduction info = true)
    by (apply (ProductionFacts.strategyFor_production info config); congruence).
  pose proof (ProductionFacts.getCredentials_production_result config w s info Hr Hp) as Hres.
  split; [congruence|]. split.
  - intros c e Hc He. rewrite Hres, Hc, He. reflexivity.
  - intros c Hok. rewrite Hres in Hok.
    destruct (fromNodeProviderChain w (region config)) as [c'|e]; [|discriminate].
    destruct (getCallerIdentity w (region config) c') as [identity|e] eqn:Hid;
      [|discriminate].
    injection Hok as ->. eauto.
Qed.

Lemma platform_role_validation_failure_is_fatal_witness :
  result (getCredentials (staticConfig (Some Static) "us-east-1" "AKIA1" "s1")
            (ecsTask false) fresh)
  = Throw (JsError "AWS credential resolution failed: Credential validation failed: ExpiredToken").
Proof.
  refine (proj1 (proj2 (platform_role_validation_failure_is_fatal (ecsTask false) fresh
                          (staticConfig (Some Static) "us-east-1" "AKIA1" "s1") _))
            taskRole (JsError "ExpiredToken") _ _).
  - vm_compute. left. reflexivity.
  - reflexivity.
  - reflexivity.
Defined.

(** C3. [checkCredentialStatus] never throws.  For every configuration,
    world and instance it returns a status; when [getCredentials] throws,
    or when the identity check on the resolved credential throws, that
    status has [available = false], method ['none'] and the message of the
    failure in [error]. *)
Theorem checkCredentialStatus_never_throws
    (w : World) (s : Service) (config : AWSCredentialConfig) :
  exists status,
    result (checkCredentialStatus config w s) = Ok status /\
    (forall e, result (getCredentials config w s) = Throw e ->
               status = {| available := false; method := "none"; identity := None;
                           error := Some (errorMessage e) |}) /\
    (forall c e, result (getCredentials config w s) = Ok c ->
                 getCallerIdentity w (region config) c = Throw e ->
                 status = {| available := false; method := "none"; identity := None;
                             error := Some (errorMessage e) |}) /\
    (forall c identity, result (getCredentials config w s) = Ok c ->
                        getCallerIdentity w (region config) c = Ok identity ->
                        available status = true /\ error status = None).
Proof.
  unfold checkCredentialStatus.
  destruct (getCredentials config w s) as [[[c|e] s1] t1] eqn:Hg.
  - destruct (DetectFacts.detectEnvironment_total w s1) as (info & t2 & Hd & _).
    destruct (getCallerIdentity w (region config) c) as [identity|e] eqn:Hid.
    + eexists. split.
      * run. rewrite Hg, Hd, Hid. reflexivity.
      * repeat split; intros; unfold result in *; cbn [fst snd] in *;
        simplify_eq; first [reflexivity | congruence].
    + eexists. split.
      * run. rewrite Hg, Hd, Hid. reflexivity.
      * repeat split; intros; unfold result in *; cbn [fst snd] in *;
        simplify_eq; first [reflexivity | congruence].
  - eexists. split.
    + run. rewrite Hg. reflexivity.
    + repeat split; intros; unfold result in *; cbn [fst snd] in *;
        simplify_eq; first [reflexivity | congruence].
Qed.

(** C10. The platform-role strategy reads the configuration through
    [region] only: two configurations with the same region give the same
    run of [getProductionCredentials] (same request to the provider chain,
    same identity check, same outcome), and in a production environment the
    same run of [getCredentials], whatever their keys, token, profile and
    SSO fields are. *)
Theorem production_reads_region_only
    (w : World) (s : Service) (config1 config2 : AWSCredentialConfig) :
  region config1 = region config2 ->
  getProductionCredentials config1 w s = getProductionCredentials config2 w s /\
  (forall info, result (detectEnvironment w s) = Ok info ->
                isProduction info = true ->
                getCredentials config1 w s = getCredentials config2 w s).
Proof.
  intros Hregion.
  assert (Hp : forall s', getProductionCredentials config1 w s'
                          = getProductionCredentials config2 w s').
  { intros s'. rewrite !ResolverFacts.getProductionCredentials_run, Hregion.
    reflexivity. }
  split; [apply Hp|].
  intros info Hr Hprod.
  destruct (DetectFacts.detectEnvironment_total w s) as (info' & t0 & Hd & _).
  rewrite Hd in Hr. injection Hr as ->.
  rewrite !(ResolverFacts.getCredentials_run _ _ _ _ _ _ Hd).
  unfold selected.
  rewrite (proj2 (ProductionFacts.strategyFor_production info config1) Hprod).
  rewrite (proj2 (ProductionFacts.strategyFor_production info config2) Hprod).
  rewrite Hp. reflexivity.
Qed.

Lemma production_reads_region_only_witness :
  getCredentials (staticConfig (Some Static) "us-east-1" "AKIA1" "s1") (ecsTask true) fresh
  = getCredentials (ssoConfig "us-east-1") (ecsTask true) fresh.
Proof.
  refine (proj2 (production_reads_region_only (ecsTask true) fresh
                   (staticConfig (Some Static) "us-east-1" "AKIA1" "s1")
                   (ssoConfig "us-east-1") _)
            {| isContainer := true; isECS := true; isEKS := false;
               hasAwsCli := false; hasIamRole := false |} _ _);
    reflexivity.
Defined.

(** C4, as the specification states it, fails: on the developer machine the
    credential resolved for [{ region: 'us-east-1', accessKeyId: 'AKIA1',
    secretAccessKey: 's1' }] has no [region] property. *)
Lemma fallback_credential_has_no_region :
  ~ exists credential,
      result (getCredentials (staticConfig None "us-east-1" "AKIA1" "s1")
                (laptop "[default]") fresh) = Ok credential /\
      credential !! "accessKeyId" = Some (JsString "AKIA1") /\
      credential !! "secretAccessKey" = Some (JsString "s1") /\
      credential !! "region" = Some (JsString "us-east-1").
Proof.
  intros (credential & Hres & _ & _ & Hregion).
  apply (f_equal (fun r => match r with
                           | Ok c => c !! "region"
                           | Throw _ => None
                           end)) in Hres.
  rewrite Hregion in Hres. vm_compute in Hres. discriminate.
Qed.

(** C4, amended.  Where detection reports no container, resolving
    [{ region: 'us-east-1', accessKeyId: 'AKIA1', secretAccessKey: 's1' }]
    enters the fallback strategy only, calls no credential provider, and
    returns the object [{ accessKeyId: 'AKIA1', secretAccessKey: 's1',
    sessionToken: undefined }]: these three properties and no [region]. *)
Theorem fallback_returns_static_keys_without_region
    (w : World) (s : Service) (info : EnvironmentInfo) :
  result (detectEnvironment w s) = Ok info ->
  isContainer info = false ->
  let run := getCredentials (staticConfig None "us-east-1" "AKIA1" "s1") w s in
  strategies (trace run) = [Fallback] /\
  trace run = trace (detectEnvironment w s)
              ++ [ConsoleLog "Using fallback credential resolution"] /\
  exists credential,
    result run = Ok credential /\
    credential !! "accessKeyId" = Some (JsString "AKIA1") /\
    credential !! "secretAccessKey" = Some (JsString "s1") /\
    credential !! "sessionToken" = Some JsUndefined /\
    credential !! "region" = None /\
    dom credential = {[ "accessKeyId"; "secretAccessKey"; "sessionToken" ]}.
Proof.
  intros Hr Hc run.
  destruct (DetectFacts.detectEnvironment_total w s) as (info' & t0 & Hd & _).
  rewrite Hd in Hr. injection Hr as ->.
  assert (Hsel : strategyFor info (staticConfig None "us-east-1" "AKIA1" "s1") = Fallback).
  { unfold strategyFor, isProduction. rewrite Hc. cbn.
    rewrite andb_false_r. reflexivity. }
  assert (Hrun : run = (Ok (staticIdentity "AKIA1" "s1" None),
                        {| environmentInfo := Some info |},
                        t0 ++ [ConsoleLog "Using fallback credential resolution"])).
  { unfold run. rewrite (ResolverFacts.getCredentials_run _ _ _ _ _ _ Hd).
    unfold selected. rewrite Hsel. reflexivity. }
  split.
  - unfold run. rewrite (ResolverFacts.getCredentials_strategies _ _ _ info).
    + rewrite Hsel. reflexivity.
    + rewrite Hd. reflexivity.
  - rewrite Hrun, Hd. split; [reflexivity|].
    exists (staticIdentity "AKIA1" "s1" None).
    repeat split; reflexivity.
Qed.

Lemma fallback_returns_static_keys_without_region_witness :
  exists credential,
    result (getCredentials (staticConfig None "us-east-1" "AKIA1" "s1")
              (laptop "[default]") fresh) = Ok credential /\
    credential !! "region" = None.
Proof.
  destruct (fallback_returns_static_keys_without_region (laptop "[default]") fresh
              {| isContainer := false; isECS := false; isEKS := false;
                 hasAwsCli := true; hasIamRole := false |})
    as (_ & _ & credential & Hres & _ & _ & _ & Hregion & _);
    [reflexivity | reflexivity |].
  exists credential. split; assumption.
Defined.

(** ** Parsing the configuration string *)

(** C5, as the specification states it, fails on the parser of
    src/unnamed/part_000: the object with [accessKeyId] alone (no
    [authType], no [secretAccessKey]) is refused for its missing region, not
    for its incomplete credentials. *)
Lemma one_static_key_without_region :
  Json.authType accessKeyOnly = None /\
  truthy (Json.accessKeyId accessKeyOnly) = true /\
  Json.secretAccessKey accessKeyOnly = None /\
  BedrockStatic._parseAndValidateConfig (parses accessKeyOnlyText accessKeyOnly)
    accessKeyOnlyText
  = Throw (JsError "Missing required AWS region. Configuration must include region.") /\
  BedrockStatic._parseAndValidateConfig (parses accessKeyOnlyText accessKeyOnly)
    accessKeyOnlyText
  <> Throw (JsError BedrockStatic.incompleteStaticCredentials).
Proof.
  repeat split; try reflexivity.
  vm_compute. discriminate.
Qed.

(** C5, amended.  For a parsed object with a region and no [authType]:
    when exactly one of [accessKeyId], [secretAccessKey] is set (non-empty),
    the parser of part_000 throws its both-keys-required error and the
    parser of part_001 its missing-credentials error; when both or neither
    are set, the parser of part_000 accepts the object. *)
Theorem one_static_key_is_refused
    (JSON_parse : Json.Parser) (apiKey : string) (parsedConfig : Json.ParsedConfig) :
  JSON_parse apiKey = Ok parsedConfig ->
  Json.authType parsedConfig = None ->
  truthy (Json.region parsedConfig) = true ->
  (truthy (Json.accessKeyId parsedConfig) <> truthy (Json.secretAccessKey parsedConfig) ->
   BedrockStatic._parseAndValidateConfig JSON_parse apiKey
   = Throw (JsError "When using explicit credentials, both accessKeyId and secretAccessKey are required.")
   /\
   BedrockSSO._parseAndValidateConfig JSON_parse apiKey
   = Throw (JsError "Missing required AWS credentials. Configuration must include region, accessKeyId, and secretAccessKey."))
  /\
  (truthy (Json.accessKeyId parsedConfig) = truthy (Json.secretAccessKey parsedConfig) ->
   exists config, BedrockStatic._parseAndValidateConfig JSON_parse apiKey = Ok config).
Proof.
  intros Hparse Hauth Hregion.
  unfold BedrockStatic._parseAndValidateConfig, BedrockSSO._parseAndValidateConfig.
  rewrite Hparse, Hauth. cbn [BedrockSSO.ssoOrAuto].
  unfold nonEmpty. rewrite Hregion.
  destruct (Json.region parsedConfig) as [region|]; [|discriminate].
  destruct (truthy (Json.accessKeyId parsedConfig)) eqn:Ha,
           (truthy (Json.secretAccessKey parsedConfig)) eqn:Hs;
    cbn [orb andb negb]; (split; intros H; [try congruence | try congruence; eauto]).
  - split; [reflexivity|].
    destruct (Json.accessKeyId parsedConfig); reflexivity.
  - split; reflexivity.
Qed.

Lemma one_static_key_is_refused_witness :
  BedrockStatic._parseAndValidateConfig (parses regionAndAccessKeyText regionAndAccessKey)
    regionAndAccessKeyText
  = Throw (JsError BedrockStatic.incompleteStaticCredentials).
Proof.
  refine (proj1 (proj1 (one_static_key_is_refused
                          (parses regionAndAccessKeyText regionAndAccessKey)
                          regionAndAccessKeyText regionAndAccessKey _ _ _) _)).
  - vm_compute. reflexivity.
  - reflexivity.
  - reflexivity.
  - vm_compute. discriminate.
Defined.

(** The later parser of src/unnamed/part_002 has no test on the keys: it
    accepts a region with [accessKeyId] alone. *)
Remark env_region_parser_accepts_one_key :
  BedrockEnvRegion._parseAndValidateConfig
    (parses regionAndAccessKeyText regionAndAccessKey) regionAndAccessKeyText ∅
  = Ok {| BedrockEnvRegion.region := "us-east-1";
          BedrockEnvRegion.accessKeyId := Some "AKIA1";
          BedrockEnvRegion.secretAccessKey := None;
          BedrockEnvRegion.sessionToken := None |}.
Proof. vm_compute. reflexivity. Qed.

(** C6, as the specification states it, fails on the parser of
    src/unnamed/part_001: the object with [authType = 'sso'] alone is
    refused for its missing region, not for its incomplete SSO details. *)
Lemma sso_without_region :
  Json.authType ssoOnly = Some "sso" /\
  Json.profile ssoOnly = None /\
  Json.ssoStartUrl ssoOnly = None /\
  BedrockSSO._parseAndValidateConfig (parses ssoOnlyText ssoOnly) ssoOnlyText
  = Throw (JsError "Missing required region for AWS configuration.") /\
  BedrockSSO._parseAndValidateConfig (parses ssoOnlyText ssoOnly) ssoOnlyText
  <> Throw (JsError BedrockSSO.incompleteSSOConfig).
Proof.
  repeat split; try reflexivity.
  vm_compute. discriminate.
Qed.

(** C6, amended.  A parsed object with a region, [authType = 'sso'], no
    profile and no [ssoStartUrl] is refused by the parser of part_001 with
    its incomplete-SSO error.  Independently, the local-SSO strategy of the
    resolver, given a configuration with no profile and no [ssoStartUrl],
    throws its own incomplete-SSO error before any provider is called, and
    [getCredentials] rethrows it where that strategy is selected. *)
Theorem sso_needs_profile_or_start_url
    (JSON_parse : Json.Parser) (apiKey : string) (parsedConfig : Json.ParsedConfig)
    (w : World) (s : Service) (config : AWSCredentialConfig) :
  JSON_parse apiKey = Ok parsedConfig ->
  Json.authType parsedConfig = Some "sso" ->
  truthy (Json.region parsedConfig) = true ->
  truthy (Json.profile parsedConfig) = false ->
  truthy (Json.ssoStartUrl parsedConfig) = false ->
  truthy (profile config) = false ->
  truthy (ssoStartUrl config) = false ->
  BedrockSSO._parseAndValidateConfig JSON_parse apiKey
  = Throw (JsError "AWS SSO configuration must include either a profile name or SSO details (ssoStartUrl, ssoRegion).")
  /\
  getDevelopmentSSOCredentials config w s
  = (Throw (JsError "SSO configuration requires either profile or SSO details"), s,
     [ConsoleLog "Using development SSO credential resolution"])
  /\
  (forall info, result (detectEnvironment w s) = Ok info ->
                strategyFor info config = LocalSSO ->
                result (getCredentials config w s)
                = Throw (JsError "AWS credential resolution failed: SSO configuration requires either profile or SSO details")).
Proof.
  intros Hparse Hauth Hregion Hprofile Hurl Hp Hu.
  assert (Hdev : forall s', getDevelopmentSSOCredentials config w s'
           = (Throw (JsError "SSO configuration requires either profile or SSO details"), s',
              [ConsoleLog "Using development SSO credential resolution"])).
  { intros s'. unfold getDevelopmentSSOCredentials, nonEmpty.
    rewrite Hp, Hu. reflexivity. }
  split; [|split].
  - unfold BedrockSSO._parseAndValidateConfig.
    rewrite Hparse, Hauth. cbn [BedrockSSO.ssoOrAuto].
    change (String.eqb "sso" "sso" || String.eqb "sso" "auto") with true.
    cbn iota. unfold nonEmpty. rewrite Hregion.
    destruct (Json.region parsedConfig) as [region|]; [|discriminate].
    change (String.eqb "sso" "sso") with true.
    rewrite Hprofile, Hurl. reflexivity.
  - apply Hdev.
  - intros info Hr Hsel.
    destruct (DetectFacts.detectEnvironment_total w s) as (info' & t0 & Hd & _).
    rewrite Hd in Hr. injection Hr as ->.
    rewrite (ResolverFacts.getCredentials_run _ _ _ _ _ _ Hd).
    unfold selected. rewrite Hsel, Hdev. reflexivity.
Qed.

Lemma sso_needs_profile_or_start_url_witness :
  BedrockSSO._parseAndValidateConfig (parses ssoAndRegionText ssoAndRegion) ssoAndRegionText
  = Throw (JsError BedrockSSO.incompleteSSOConfig)
  /\
  result (getCredentials (ssoConfig "us-west-2") (laptop "[default]") fresh)
  = Throw (JsError "AWS credential resolution failed: SSO configuration requires either profile or SSO details").
Proof.
  destruct (sso_needs_profile_or_start_url (parses ssoAndRegionText ssoAndRegion)
              ssoAndRegionText ssoAndRegion (laptop "[default]") fresh
              (ssoConfig "us-west-2"))
    as (Hparser & _ & Hresolver).
  - vm_compute. reflexivity.
  - reflexivity.
  - reflexivity.
  - reflexivity.
  - reflexivity.
  - reflexivity.
  - reflexivity.
  - split; [exact Hparser|].
    apply (Hresolver {| isContainer := false; isECS := false; isEKS := false;
                        hasAwsCli := true; hasIamRole := false |}); reflexivity.
Defined.

(** C7.  When the parsed object has no region, the parser of
    src/unnamed/part_002 takes the region from the server environment: the
    first that is set (non-empty) of [AWS_BEDROCK_REGION], [AWS_REGION],
    [AWS_DEFAULT_REGION], and it succeeds with that region.  It throws the
    missing-region error exactly when none of the three is set. *)
Theorem region_falls_back_to_server_environment
    (JSON_parse : Json.Parser) (apiKey : string) (parsedConfig : Json.ParsedConfig)
    (serverEnv : gmap string string) :
  JSON_parse apiKey = Ok parsedConfig ->
  truthy (Json.region parsedConfig) = false ->
  let fromEnvironment :=
    or_else (or_else (serverEnv !! "AWS_BEDROCK_REGION") (serverEnv !! "AWS_REGION"))
            (serverEnv !! "AWS_DEFAULT_REGION") in
  let parsed := BedrockEnvRegion._parseAndValidateConfig JSON_parse apiKey serverEnv in
  (forall region, truthy fromEnvironment = true -> fromEnvironment = Some region ->
     parsed = Ok {| BedrockEnvRegion.region := region;
                    BedrockEnvRegion.accessKeyId := nonEmpty (Json.accessKeyId parsedConfig);
                    BedrockEnvRegion.secretAccessKey := nonEmpty (Json.secretAccessKey parsedConfig);
                    BedrockEnvRegion.sessionToken := nonEmpty (Json.sessionToken parsedConfig) |})
  /\
  (parsed = Throw (JsError "Missing AWS region. Provide it in AWS_BEDROCK_CONFIG or set AWS_BEDROCK_REGION.")
   <-> truthy fromEnvironment = false).
Proof.
  intros Hparse Hregion fromEnvironment parsed.
  assert (Hof : BedrockEnvRegion.regionOf parsedConfig serverEnv = fromEnvironment).
  { unfold BedrockEnvRegion.regionOf, fromEnvironment.
    unfold or_else at 3. rewrite Hregion. reflexivity. }
  unfold parsed, BedrockEnvRegion._parseAndValidateConfig.
  rewrite Hparse, Hof. clearbody fromEnvironment.
  split.
  - intros region Ht Hsome. rewrite (nonEmpty_truthy _ Ht), Hsome. reflexivity.
  - destruct (truthy fromEnvironment) eqn:Ht.
    + rewrite (nonEmpty_truthy _ Ht).
      destruct fromEnvironment; [|discriminate Ht].
      split; intros H; discriminate H.
    + rewrite (nonEmpty_falsy _ Ht). split; reflexivity.
Qed.

Lemma region_falls_back_to_server_environment_witness :
  BedrockEnvRegion._parseAndValidateConfig (parses "{}" emptyObject) "{}"
    {[ "AWS_BEDROCK_REGION" := "us-west-2" ]}
  = Ok {| BedrockEnvRegion.region := "us-west-2";
          BedrockEnvRegion.accessKeyId := None;
          BedrockEnvRegion.secretAccessKey := None;
          BedrockEnvRegion.sessionToken := None |}.
Proof.
  refine (proj1 (region_falls_back_to_server_environment (parses "{}" emptyObject) "{}"
                   emptyObject {[ "AWS_BEDROCK_REGION" := "us-west-2" ]} _ _)
            "us-west-2" _ _).
  - reflexivity.
  - reflexivity.
  - vm_compute. reflexivity.
  - vm_compute. reflexivity.
Defined.

(** ** Profiles of the local configuration file *)

Module StringFacts.

Lemma prefix_app (p s : string) :
  String.prefix p s = true -> exists rest, s = p +:+ rest.
Proof.
  revert s. induction p as [|a p IH]; intros s H.
  - exists s. reflexivity.
  - destruct s as [|b s]; [discriminate|].
    cbn in H. destruct (ascii_dec a b) as [->|]; [|discriminate].
    destruct (IH s H) as [rest ->]. exists rest. reflexivity.
Qed.

Lemma substring_skip (p rest : string) (i m : nat) :
  String.substring (String.length p + i) m (p +:+ rest) = String.substring i m rest.
Proof. induction p as [|a p IH]; [reflexivity|]. cbn. exact IH. Qed.

Lemma substring_whole (s : string) : String.substring 0 (String.length s) s = s.
Proof. induction s as [|a s IH]; [reflexivity|]. cbn. rewrite IH. reflexivity. Qed.

Lemma substring_split (s : string) (i : nat) :
  i <= String.length s ->
  s = String.substring 0 i s +:+ String.substring i (String.length s - i) s.
Proof.
  revert i. induction s as [|a s IH]; intros i Hi.
  - cbn in Hi. assert (i = 0) as -> by lia. reflexivity.
  - destruct i as [|i].
    + cbn [String.substring String.append]. rewrite Nat.sub_0_r.
      change (String.length (String a s)) with (S (String.length s)).
      cbn [String.substring]. rewrite substring_whole. reflexivity.
    + cbn in Hi. simpl.
      change (String a s = String a (String.substring 0 i s
                +:+ String.substring i (String.length s - i) s)).
      f_equal. apply IH. lia.
Qed.

Lemma length_app (p s : string) :
  String.length (p +:+ s) = String.length p + String.length s.
Proof.
  induction p as [|a p IH]; [reflexivity|].
  change (S (String.length (p +:+ s)) = S (String.length p + String.length s)).
  rewrite IH. reflexivity.
Qed.

(** A line that starts with ["[profile "] and ends with ["]"] is
    ["[profile "], its [slice(9, -1)], and ["]"]. *)
Lemma profile_header (t : string) :
  startsWith "[profile " t = true ->
  endsWith "]" t = true ->
  t = "[profile " +:+ slice 9 (-1) t +:+ "]".
Proof.
  intros Hs He. destruct (prefix_app _ _ Hs) as [rest ->]. clear Hs.
  unfold endsWith in He. rewrite length_app in He.
  change (String.length "[profile ") with 9 in *.
  change (String.length "]") with 1 in *.
  destruct (1 <=? 9 + String.length rest)%nat eqn:Hle; [|discriminate].
  apply String.eqb_eq in He.
  destruct (String.length rest) as [|k] eqn:Hlen.
  - destruct rest; [|discriminate]. vm_compute in He. discriminate.
  - replace (9 + S k - 1) with (String.length "[profile " + k) in He
      by (change (String.length "[profile ") with 9; lia).
    rewrite substring_skip in He.
    assert (Hslice : slice 9 (-1) ("[profile " +:+ rest) = String.substring 0 k rest).
    { unfold slice. rewrite length_app, Hlen.
      change (String.length "[profile ") with 9.
      unfold sliceIndex.
      change (9 <? 0)%Z with false. change (-1 <? 0)%Z with true. cbv iota.
      match goal with
      | |- String.substring ?from ?span _ = _ =>
          replace span with k by lia;
          replace from with (String.length "[profile " + 0)
            by (change (String.length "[profile ") with 9; lia)
      end.
      apply substring_skip. }
    rewrite Hslice. f_equal.
    rewrite (substring_split rest k) at 1 by lia.
    rewrite Hlen. replace (S k - k) with 1 by lia. rewrite He. reflexivity.
Qed.

End StringFacts.

Module ProfileFacts.

(** One turn of the loop of [AWSSSOService.getAvailableProfiles]. *)
Lemma sso_pushProfile names line name :
  In name (AWSSSOService.pushProfile names line) ->
  In name names \/ headerOf name line.
Proof.
  unfold AWSSSOService.pushProfile, headerOf.
  destruct (String.eqb (trim line) "[default]") eqn:Hd.
  - apply String.eqb_eq in Hd. rewrite in_app_iff. cbn.
    intros [H|[<-|[]]]; auto.
  - destruct (startsWith "[profile " (trim line)) eqn:Hs; [|auto].
    destruct (endsWith "]" (trim line)) eqn:He; [|auto].
    cbn [andb]. rewrite in_app_iff. cbn.
    intros [H|[<-|[]]]; [auto|].
    right. right. apply StringFacts.profile_header; assumption.
Qed.

Lemma sso_fold lines names name :
  In name (fold_left AWSSSOService.pushProfile lines names) ->
  In name names \/ exists line, In line lines /\ headerOf name line.
Proof.
  revert names. induction lines as [|line lines IH]; intros names H.
  - auto.
  - cbn in H. destruct (IH _ H) as [Hin|(l & Hl & Hh)].
    + destruct (sso_pushProfile _ _ _ Hin) as [?|?]; [auto|].
      right. exists line. split; [left; reflexivity|assumption].
    + right. exists l. split; [right; assumption|assumption].
Qed.

(** The parser of awsSsoService.ts returns names of well-formed headers
    only. *)
Lemma sso_namesFromHeaders : namesFromHeaders AWSSSOService.profilesOf.
Proof.
  intros configContent name H.
  destruct (sso_fold _ _ _ H) as [[]|?]. assumption.
Qed.

(** Neither service fails the read: a list of names is returned whatever
    the file system does. *)
Lemma sso_getAvailableProfiles_total w s :
  exists names, result (AWSSSOService.getAvailableProfiles w s) = Ok names.
Proof.
  unfold AWSSSOService.getAvailableProfiles. run.
  destruct (existsSync w (awsConfigPath w)); [|eauto].
  destruct (readFileSync w (awsConfigPath w)); eauto.
Qed.

Lemma getAvailableProfiles_total w s :
  exists names, result (getAvailableProfiles w s) = Ok names.
Proof.
  destruct (DetectFacts.detectEnvironment_total w s) as (info & t0 & Hd & _).
  unfold getAvailableProfiles. erewrite bind_ok by exact Hd.
  destruct (isContainer info); [eauto|]. run.
  destruct (existsSync w (awsConfigPath w)); [|eauto].
  destruct (readFileSync w (awsConfigPath w)); eauto.
Qed.

End ProfileFacts.

(** C9.  The claim holds of awsSsoService.ts ([ProfileFacts.sso_namesFromHeaders])
    and not of awsCredentialService.ts, which takes [slice(9, -1)] of a line
    without testing that it ends with a bracket.  On a developer machine
    whose configuration file starts with the unclosed header [[profile dev],
    [AWSCredentialService.getAvailableProfiles] returns the name [de]; no
    line of the file is a well-formed header of that name; the sibling
    method of [AWSSSOService] skips the line. *)
Theorem unclosed_header_yields_mangled_name :
  result (getAvailableProfiles (laptop unclosedHeader) fresh) = Ok ["de"] /\
  split newline unclosedHeader = ["[profile dev"; "region = us-west-1"] /\
  (~ exists line, In line (split newline unclosedHeader) /\ headerOf "de" line) /\
  ~ namesFromHeaders AWSCredentialService.profilesOf /\
  result (AWSSSOService.getAvailableProfiles (laptop unclosedHeader) tt) = Ok [].
Proof.
  assert (Hno : ~ exists line, In line (split newline unclosedHeader) /\ headerOf "de" line).
  { intros (line & Hin & Hh).
    change (split newline unclosedHeader)
      with ["[profile dev"; "region = us-west-1"] in Hin.
    destruct Hin as [<-|[<-|[]]]; destruct Hh as [[Hd _]|Hp];
      vm_compute in Hd || vm_compute in Hp; discriminate. }
  repeat split; try reflexivity; try exact Hno.
  intros Hall. apply Hno, (Hall unclosedHeader "de"). left. reflexivity.
Qed.

(** * Further properties of the sources *)

(** ** awsCredentialService.ts: detection *)

Module ProbeFacts.

Import Probes.

Lemma isRunningInContainer_answer w s :
  exists t, isRunningInContainer w s = (Ok (containerAnswer w), s, t)
            /\ forallb probing t = true.
Proof.
  unfold isRunningInContainer, containerAnswer. run.
  destruct (existsSync w "/.dockerenv"); [eauto|].
  destruct (existsSync w "/proc/1/cgroup"); [|eauto].
  destruct (readFileSync w "/proc/1/cgroup"); eauto.
Qed.

Lemma isRunningInECS_answer w s :
  exists t, isRunningInECS w s = (Ok (ecsAnswer w), s, t) /\ forallb probing t = true.
Proof.
  unfold isRunningInECS, ecsAnswer. run.
  destruct (process_env w !! "AWS_EXECUTION_ENV") as [v|];
    [destruct (includes "ECS" v); [eauto|]|];
    (destruct (truthy (process_env w !! "ECS_CONTAINER_METADATA_URI")); eauto).
Qed.

Lemma isRunningInEKS_answer w s :
  exists t, isRunningInEKS w s = (Ok (eksAnswer w), s, t) /\ forallb probing t = true.
Proof.
  unfold isRunningInEKS, eksAnswer. run.
  destruct (existsSync w _); eauto.
Qed.

Lemma isAwsCliAvailable_answer w s :
  exists t, isAwsCliAvailable w s = (Ok (cliAnswer w), s, t) /\ forallb probing t = true.
Proof.
  unfold isAwsCliAvailable, cliAnswer. run.
  destruct (execAsync w _); eauto.
Qed.

Lemma hasIamRoleAttached_answer w s :
  exists t, hasIamRoleAttached w s = (Ok (roleAnswer w), s, t)
            /\ forallb probing t = true.
Proof.
  unfold hasIamRoleAttached, roleAnswer. run.
  destruct (fetch w _); eauto.
Qed.

Lemma forallb_probing_app t1 t2 :
  forallb probing t1 = true -> forallb probing t2 = true ->
  forallb probing (t1 ++ t2) = true.
Proof. intros H1 H2. rewrite forallb_app, H1, H2. reflexivity. Qed.

(** Detection on any instance: only probing events. *)
Lemma detectEnvironment_probing w s :
  forallb probing (trace (detectEnvironment w s)) = true.
Proof.
  unfold detectEnvironment.
  destruct s as [[cached|]]; [reflexivity|].
  destruct (isRunningInContainer_answer w fresh) as (t1 & H1 & Q1).
  destruct (isRunningInECS_answer w fresh) as (t2 & H2 & Q2).
  destruct (isRunningInEKS_answer w fresh) as (t3 & H3 & Q3).
  destruct (isAwsCliAvailable_answer w fresh) as (t4 & H4 & Q4).
  destruct (hasIamRoleAttached_answer w fresh) as (t5 & H5 & Q5).
  unfold fresh in *.
  erewrite bind_ok by reflexivity. cbn [environmentInfo].
  erewrite bind_ok by exact H1.
  erewrite bind_ok by exact H2.
  erewrite bind_ok by exact H3.
  erewrite bind_ok by exact H4.
  erewrite bind_ok by exact H5.
  run. cbn [snd].
  repeat apply forallb_probing_app; try assumption; reflexivity.
Qed.

End ProbeFacts.

(** X1. On a fresh instance, detection answers each flag from the world
    alone, and a probe that fails answers [false]: the marker file or a
    readable cgroup file naming docker; one of the three ECS variables; the
    service-account token together with the Kubernetes host variable; a
    successful [aws --version]; an [ok] response of the metadata endpoint. *)
Theorem detectEnvironment_rules (w : World) :
  result (detectEnvironment w fresh)
  = Ok {| isContainer := Probes.containerAnswer w;
          isECS := Probes.ecsAnswer w;
          isEKS := Probes.eksAnswer w;
          hasAwsCli := Probes.cliAnswer w;
          hasIamRole := Probes.roleAnswer w |}.
Proof.
  unfold detectEnvironment.
  destruct (ProbeFacts.isRunningInContainer_answer w fresh) as (t1 & H1 & _).
  destruct (ProbeFacts.isRunningInECS_answer w fresh) as (t2 & H2 & _).
  destruct (ProbeFacts.isRunningInEKS_answer w fresh) as (t3 & H3 & _).
  destruct (ProbeFacts.isAwsCliAvailable_answer w fresh) as (t4 & H4 & _).
  destruct (ProbeFacts.hasIamRoleAttached_answer w fresh) as (t5 & H5 & _).
  erewrite bind_ok by reflexivity. cbn [environmentInfo fresh].
  erewrite bind_ok by exact H1.
  erewrite bind_ok by exact H2.
  erewrite bind_ok by exact H3.
  erewrite bind_ok by exact H4.
  erewrite bind_ok by exact H5.
  reflexivity.
Qed.

(** ** awsCredentialService.ts: login, profiles, resolution, status *)

Import MoreSamples MoreConfigs MoreObjects.

(** X2. [initiateSSORLogin] refuses without running any command when the
    AWS CLI is missing or the host is a container: it throws, the missing
    CLI being reported first, and its trace is that of detection alone. *)
Theorem initiateSSORLogin_refused
    (w : World) (s : Service) (profile : option string) (info : EnvironmentInfo) :
  result (detectEnvironment w s) = Ok info ->
  hasAwsCli info = false \/ isContainer info = true ->
  result (initiateSSORLogin profile w s)
  = Throw (JsError (if hasAwsCli info
                    then "SSO login is not supported in container environments. Use IAM roles for production."
                    else "AWS CLI is not available. In production, use IAM roles instead of SSO."))
  /\ trace (initiateSSORLogin profile w s) = trace (detectEnvironment w s).
Proof.
  intros Hr Hguard.
  destruct (DetectFacts.detectEnvironment_total w s) as (info' & t0 & Hd & _).
  rewrite Hd in Hr. injection Hr as ->.
  unfold initiateSSORLogin. erewrite bind_ok by exact Hd. rewrite Hd.
  destruct (hasAwsCli info); cbn [negb].
  - destruct Hguard as [?|Hc]; [discriminate|]. rewrite Hc.
    run. cbn [fst snd]. rewrite app_nil_r. split; reflexivity.
  - run. cbn [fst snd]. rewrite app_nil_r. split; reflexivity.
Qed.

Lemma initiateSSORLogin_refused_witness :
  result (initiateSSORLogin (Some "dev") (ecsTask true) fresh)
  = Throw (JsError "AWS CLI is not available. In production, use IAM roles instead of SSO.").
Proof.
  refine (proj1 (initiateSSORLogin_refused (ecsTask true) fresh (Some "dev")
                   {| isContainer := true; isECS := true; isEKS := false;
                      hasAwsCli := false; hasIamRole := false |} _ _)).
  - reflexivity.
  - left. reflexivity.
Defined.

(** X3. On a host with the AWS CLI that is not a container,
    [initiateSSORLogin] runs exactly one command after detection,
    [aws sso login] with [--profile] when a non-empty profile is given; it
    returns when the command succeeds and otherwise throws the failure
    under the prefix [AWS SSO login failed: ]. *)
Theorem initiateSSORLogin_runs_one_command
    (w : World) (s : Service) (profile : option string) (info : EnvironmentInfo) :
  result (detectEnvironment w s) = Ok info ->
  hasAwsCli info = true ->
  isContainer info = false ->
  let command := match nonEmpty profile with
                 | Some p => "aws sso login --profile " +:+ p
                 | None => "aws sso login"
                 end in
  result (initiateSSORLogin profile w s)
  = match execAsync w command with
    | Ok _ => Ok tt
    | Throw e => Throw (JsError ("AWS SSO login failed: " +:+ errorMessage e))
    end
  /\ trace (initiateSSORLogin profile w s)
     = trace (detectEnvironment w s)
       ++ [ConsoleLog ("Executing: " +:+ command); ExecAsync command;
           match execAsync w command with
           | Ok _ => ConsoleLog "AWS SSO login successful:"
           | Throw _ => ConsoleError "AWS SSO login failed:"
           end].
Proof.
  intros Hr Hcli Hc command.
  destruct (DetectFacts.detectEnvironment_total w s) as (info' & t0 & Hd & _).
  rewrite Hd in Hr. injection Hr as ->.
  unfold initiateSSORLogin. erewrite bind_ok by exact Hd. rewrite Hd, Hcli, Hc.
  cbn [negb]. unfold loginCommand. fold command. run.
  destruct (execAsync w command); split; reflexivity.
Qed.

Lemma initiateSSORLogin_runs_one_command_witness :
  result (initiateSSORLogin (Some "dev") laptopOffline fresh)
  = Throw (JsError "AWS SSO login failed: Command failed: network unreachable").
Proof.
  refine (proj1 (initiateSSORLogin_runs_one_command laptopOffline fresh (Some "dev")
                   {| isContainer := false; isECS := false; isEKS := false;
                      hasAwsCli := true; hasIamRole := false |} _ _ _));
    reflexivity.
Defined.

(** X4. In a container [getAvailableProfiles] returns the empty list and
    touches nothing beyond detection: the configuration file is neither
    looked for nor read, whatever it contains. *)
Theorem getAvailableProfiles_empty_in_container
    (w : World) (s : Service) (info : EnvironmentInfo) :
  result (detectEnvironment w s) = Ok info ->
  isContainer info = true ->
  getAvailableProfiles w s
  = (Ok [], instance (detectEnvironment w s), trace (detectEnvironment w s)).
Proof.
  intros Hr Hc.
  destruct (DetectFacts.detectEnvironment_total w s) as (info' & t0 & Hd & _).
  rewrite Hd in Hr. injection Hr as ->.
  unfold getAvailableProfiles. erewrite bind_ok by exact Hd. rewrite Hd, Hc.
  run. cbn [fst snd]. rewrite app_nil_r. reflexivity.
Qed.

Lemma getAvailableProfiles_empty_in_container_witness :
  result (getAvailableProfiles (ecsTask true) fresh) = Ok [].
Proof.
  rewrite (getAvailableProfiles_empty_in_container (ecsTask true) fresh
             {| isContainer := true; isECS := true; isEKS := false;
                hasAwsCli := false; hasIamRole := false |});
    reflexivity.
Defined.




Module StrategyFacts.
Import Kinds.

Lemma probing_no_identityCheck t :
  forallb Probes.probing t = true -> existsb identityCheck t = false.
Proof.
  induction t as [|ev t IH]; [reflexivity|].
  cbn [forallb existsb]. intros H. apply andb_prop in H as [Hev Ht].
  rewrite (IH Ht). destruct ev; try reflexivity; discriminate.
Qed.

Lemma getDevelopmentSSOCredentials_no_identityCheck config w s :
  existsb identityCheck (trace (getDevelopmentSSOCredentials config w s)) = false.
Proof.
  unfold getDevelopmentSSOCredentials. run.
  destruct (nonEmpty (profile config)) as [p|].
  - destruct (fromIni w p (region config)); reflexivity.
  - destruct (nonEmpty (ssoStartUrl config)) as [u|]; [|reflexivity].
    destruct (fromSSO w u _ _ _ _); reflexivity.
Qed.

Lemma getFallbackCredentials_no_identityCheck config w s :
  existsb identityCheck (trace (getFallbackCredentials config w s)) = false.
Proof.
  unfold getFallbackCredentials. run.
  destruct (nonEmpty (accessKeyId config)) as [a|],
           (nonEmpty (secretAccessKey config)) as [k|];
    try reflexivity;
    destruct (fromNodeProviderChain w (region config)); reflexivity.
Qed.

(** The run of the fallback strategy. *)
Lemma getFallbackCredentials_run config w s :
  getFallbackCredentials config w s =
  match nonEmpty (accessKeyId config), nonEmpty (secretAccessKey config) with
  | Some a, Some k =>
      (Ok (staticIdentity a k (sessionToken config)), s,
       [ConsoleLog "Using fallback credential resolution"])
  | _, _ =>
      (fromNodeProviderChain w (region config), s,
       [ConsoleLog "Using fallback credential resolution";
        NodeProviderChain (region config)])
  end.
Proof.
  unfold getFallbackCredentials. run.
  destruct (nonEmpty (accessKeyId config)) as [a|],
           (nonEmpty (secretAccessKey config)) as [k|];
    try reflexivity;
    destruct (fromNodeProviderChain w (region config)); reflexivity.
Qed.

(** The run of the local-SSO strategy. *)
Lemma getDevelopmentSSOCredentials_run config w s :
  getDevelopmentSSOCredentials config w s =
  match nonEmpty (profile config) with
  | Some p =>
      (fromIni w p (region config), s,
       [ConsoleLog "Using development SSO credential resolution";
        Ini p (region config)])
  | None =>
      match nonEmpty (ssoStartUrl config) with
      | Some u =>
          (fromSSO w u (ssoRegion config) (ssoAccountId config) (ssoRoleName config)
             (region config), s,
           [ConsoleLog "Using development SSO credential resolution";
            SSO u (ssoRegion config) (ssoAccountId config) (ssoRoleName config)
              (region config)])
      | None =>
          (Throw (JsError "SSO configuration requires either profile or SSO details"), s,
           [ConsoleLog "Using development SSO credential resolution"])
      end
  end.
Proof.
  unfold getDevelopmentSSOCredentials. run.
  destruct (nonEmpty (profile config)) as [p|].
  - destruct (fromIni w p (region config)); reflexivity.
  - destruct (nonEmpty (ssoStartUrl config)) as [u|]; [|reflexivity].
    destruct (fromSSO w u _ _ _ _); reflexivity.
Qed.

Lemma getCredentials_result config w s info :
  result (detectEnvironment w s) = Ok info ->
  result (getCredentials config w s)
  = surfaced (result (selected info config w {| environmentInfo := Some info |})).
Proof.
  intros Hr.
  destruct (DetectFacts.detectEnvironment_total w s) as (info' & t0 & Hd & _).
  rewrite Hd in Hr. injection Hr as ->.
  rewrite (ResolverFacts.getCredentials_run _ _ _ _ _ _ Hd).
  destruct (selected info config w _) as [[[c|e] s2] t]; reflexivity.
Qed.

(** After [getCredentials] the cache holds the detected environment. *)
Lemma getCredentials_instance config w w' s :
  exists info,
    result (detectEnvironment w s) = Ok info /\
    instance (getCredentials config w s) = {| environmentInfo := Some info |} /\
    detectEnvironment w' (instance (getCredentials config w s))
    = (Ok info, instance (getCredentials config w s), []).
Proof.
  destruct (DetectFacts.detectEnvironment_total w s) as (info & t0 & Hd & _).
  exists info. rewrite Hd. split; [reflexivity|].
  rewrite (ResolverFacts.getCredentials_run _ _ _ _ _ _ Hd).
  destruct (ResolverFacts.selected_strategies info config w
              {| environmentInfo := Some info |}) as (r & t & Hs & _).
  rewrite Hs. destruct r; split; reflexivity.
Qed.

End StrategyFacts.

Import Kinds.

(** X6. A call of [getCredentials], successful or not, leaves the detected
    environment in the cache of the instance and changes nothing else:
    detection afterwards, in any world, answers the same environment with
    an empty trace. *)
Theorem getCredentials_fills_cache
    (w w' : World) (s : Service) (config : AWSCredentialConfig) :
  exists info,
    result (detectEnvironment w s) = Ok info /\
    instance (getCredentials config w s) = {| environmentInfo := Some info |} /\
    detectEnvironment w' (instance (getCredentials config w s))
    = (Ok info, instance (getCredentials config w s), []).
Proof. apply StrategyFacts.getCredentials_instance. Qed.

(** X7. Outside the platform-role strategy no identity check is made: when
    detection does not report a container with ECS, EKS or an attached
    role, the trace of [getCredentials] holds no call to STS, so the
    credentials of the local-SSO and fallback strategies are returned
    unvalidated. *)
Theorem no_identity_check_outside_platform_role
    (w : World) (s : Service) (config : AWSCredentialConfig) (info : EnvironmentInfo) :
  result (detectEnvironment w s) = Ok info ->
  isProduction info = false ->
  existsb identityCheck (trace (getCredentials config w s)) = false.
Proof.
  intros Hr Hp.
  pose proof (ProbeFacts.detectEnvironment_probing w s) as Hprobe.
  destruct (DetectFacts.detectEnvironment_total w s) as (info' & t0 & Hd & _).
  rewrite Hd in Hr, Hprobe. injection Hr as ->.
  apply StrategyFacts.probing_no_identityCheck in Hprobe. cbn [trace snd] in Hprobe.
  rewrite (ResolverFacts.getCredentials_run _ _ _ _ _ _ Hd).
  assert (Hsel : existsb identityCheck
                   (trace (selected info config w {| environmentInfo := Some info |}))
                 = false).
  { unfold selected, strategyFor. rewrite Hp.
    destruct (hasAwsCli info && isSso (authType config)).
    - apply StrategyFacts.getDevelopmentSSOCredentials_no_identityCheck.
    - apply StrategyFacts.getFallbackCredentials_no_identityCheck. }
  destruct (selected info config w _) as [[[c|e] s2] t]; cbn [trace snd] in *;
    rewrite !existsb_app, Hprobe, Hsel; reflexivity.
Qed.

Lemma no_identity_check_outside_platform_role_witness :
  existsb identityCheck
    (trace (getCredentials (staticConfig None "us-east-1" "AKIA1" "s1")
              (laptop "[default]") fresh)) = false.
Proof.
  apply (no_identity_check_outside_platform_role (laptop "[default]") fresh
           (staticConfig None "us-east-1" "AKIA1" "s1")
           {| isContainer := false; isECS := false; isEKS := false;
              hasAwsCli := true; hasIamRole := false |});
    reflexivity.
Defined.

(** X8. Where the fallback strategy is selected: with both keys non-empty
    the result is the object of the two keys and the session token of the
    configuration, and no provider is called; with a key missing or empty
    the result is that of the default provider chain for the region of the
    configuration, a failure being rethrown under the resolution prefix. *)
Theorem fallback_outcome
    (w : World) (s : Service) (config : AWSCredentialConfig) (info : EnvironmentInfo) :
  result (detectEnvironment w s) = Ok info ->
  strategyFor info config = Fallback ->
  result (getCredentials config w s)
  = match nonEmpty (accessKeyId config), nonEmpty (secretAccessKey config) with
    | Some a, Some k => Ok (staticIdentity a k (sessionToken config))
    | _, _ => surfaced (fromNodeProviderChain w (region config))
    end
  /\ (truthy (accessKeyId config) && truthy (secretAccessKey config) = true ->
      existsb providerCall (trace (getCredentials config w s)) = false).
Proof.
  intros Hr Hsel. split.
  - rewrite (StrategyFacts.getCredentials_result _ _ _ _ Hr).
    unfold selected. rewrite Hsel, StrategyFacts.getFallbackCredentials_run.
    destruct (nonEmpty (accessKeyId config)) as [a|],
             (nonEmpty (secretAccessKey config)) as [k|]; reflexivity.
  - intros Hkeys. apply andb_prop in Hkeys as [Ha Hk].
    pose proof (ProbeFacts.detectEnvironment_probing w s) as Hprobe.
    destruct (DetectFacts.detectEnvironment_total w s) as (info' & t0 & Hd & _).
    rewrite Hd in Hr, Hprobe. injection Hr as ->. cbn [trace snd] in Hprobe.
    assert (Hquiet : existsb providerCall t0 = false).
    { clear -Hprobe. induction t0 as [|ev t IH]; [reflexivity|].
      cbn [forallb existsb] in *. apply andb_prop in Hprobe as [Hev Ht].
      rewrite (IH Ht). destruct ev; try reflexivity; discriminate. }
    rewrite (ResolverFacts.getCredentials_run _ _ _ _ _ _ Hd).
    unfold selected. rewrite Hsel, StrategyFacts.getFallbackCredentials_run.
    rewrite (nonEmpty_truthy _ Ha), (nonEmpty_truthy _ Hk).
    destruct (accessKeyId config); [|discriminate].
    destruct (secretAccessKey config); [|discriminate].
    cbn [trace snd]. rewrite existsb_app, Hquiet. reflexivity.
Qed.

Lemma fallback_outcome_witness :
  result (getCredentials (regionOnlyConfig "eu-west-1") bareHost fresh)
  = Throw (JsError "AWS credential resolution failed: Could not load credentials from any providers").
Proof.
  refine (proj1 (fallback_outcome bareHost fresh (regionOnlyConfig "eu-west-1")
                   {| isContainer := false; isECS := false; isEKS := false;
                      hasAwsCli := false; hasIamRole := false |} _ _));
    reflexivity.
Defined.

(** X9. Where the local-SSO strategy is selected, a non-empty profile
    decides alone: the result is that of [fromIni] for the profile and the
    region, whatever the SSO fields hold.  Without a profile and with a
    non-empty start URL it is that of [fromSSO] for the SSO fields as given.
    Failures are rethrown under the resolution prefix. *)
Theorem local_sso_outcome
    (w : World) (s : Service) (config : AWSCredentialConfig) (info : EnvironmentInfo) :
  result (detectEnvironment w s) = Ok info ->
  strategyFor info config = LocalSSO ->
  result (getCredentials config w s)
  = match nonEmpty (profile config) with
    | Some p => surfaced (fromIni w p (region config))
    | None =>
        match nonEmpty (ssoStartUrl config) with
        | Some u =>
            surfaced (fromSSO w u (ssoRegion config) (ssoAccountId config)
                        (ssoRoleName config) (region config))
        | None =>
            Throw (JsError "AWS credential resolution failed: SSO configuration requires either profile or SSO details")
        end
    end.
Proof.
  intros Hr Hsel.
  rewrite (StrategyFacts.getCredentials_result _ _ _ _ Hr).
  unfold selected. rewrite Hsel, StrategyFacts.getDevelopmentSSOCredentials_run.
  destruct (nonEmpty (profile config)) as [p|]; [reflexivity|].
  destruct (nonEmpty (ssoStartUrl config)) as [u|]; reflexivity.
Qed.

Lemma local_sso_outcome_witness :
  result (getCredentials (profileConfig "us-east-1" "dev") (laptop "[default]") fresh)
  = Throw (JsError "AWS credential resolution failed: Could not load credentials from any providers").
Proof.
  apply (local_sso_outcome (laptop "[default]") fresh (profileConfig "us-east-1" "dev")
           {| isContainer := false; isECS := false; isEKS := false;
              hasAwsCli := true; hasIamRole := false |});
    reflexivity.
Defined.

Module StatusFacts.

Lemma available_inv
    (w : World) (s : Service) (config : AWSCredentialConfig) (status : CredentialStatus) :
  result (checkCredentialStatus config w s) = Ok status ->
  available status = true ->
  exists info credentials caller,
    result (detectEnvironment w s) = Ok info /\
    result (getCredentials config w s) = Ok credentials /\
    getCallerIdentity w (region config) credentials = Ok caller /\
    identity status = Some caller /\
    error status = None /\
    method status
    = (if isECS info then "ECS Task Role"
       else if isEKS info then "EKS Service Account"
       else if hasIamRole info then "EC2 Instance Profile"
       else if isSso (authType config) then "AWS SSO"
       else if truthy (accessKeyId config) then "Static Credentials"
       else "Default Credential Chain").
Proof.
  intros Hres Havail.
  destruct (StrategyFacts.getCredentials_instance config w w s) as (info & Hinfo & Hinst & Hdet).
  unfold checkCredentialStatus in Hres.
  destruct (getCredentials config w s) as [[[c|e] s1] t1] eqn:Hg.
  - cbn [instance fst snd] in Hinst, Hdet. subst s1.
    destruct (getCallerIdentity w (region config) c) as [caller|e] eqn:Hid.
    + run. rewrite Hg, Hdet, Hid in Hres. cbn [fst] in Hres.
      injection Hres as <-.
      exists info, c, caller. repeat split; try reflexivity; try assumption.
      destruct caller; reflexivity.
    + run. rewrite Hg, Hdet, Hid in Hres. cbn [fst] in Hres.
      injection Hres as <-. discriminate.
  - run. rewrite Hg in Hres. cbn [fst] in Hres. injection Hres as <-. discriminate.
Qed.

End StatusFacts.

(** X10. When [checkCredentialStatus] reports [available], resolution and
    the identity check both succeeded, the identity is the answer of STS,
    there is no error, and the method is read from the detected environment
    and the configuration alone: ECS, then EKS, then the attached role,
    then [authType = 'sso'], then a non-empty [accessKeyId], then the
    default chain. *)
Theorem checkCredentialStatus_available
    (w : World) (s : Service) (config : AWSCredentialConfig) (status : CredentialStatus) :
  result (checkCredentialStatus config w s) = Ok status ->
  available status = true ->
  exists info credentials caller,
    result (detectEnvironment w s) = Ok info /\
    result (getCredentials config w s) = Ok credentials /\
    getCallerIdentity w (region config) credentials = Ok caller /\
    identity status = Some caller /\
    error status = None /\
    method status
    = (if isECS info then "ECS Task Role"
       else if isEKS info then "EKS Service Account"
       else if hasIamRole info then "EC2 Instance Profile"
       else if isSso (authType config) then "AWS SSO"
       else if truthy (accessKeyId config) then "Static Credentials"
       else "Default Credential Chain").
Proof. apply StatusFacts.available_inv. Qed.

Lemma checkCredentialStatus_available_witness :
  exists info credentials caller,
    result (detectEnvironment (ecsTask true) fresh) = Ok info /\
    result (getCredentials (regionOnlyConfig "us-east-1") (ecsTask true) fresh)
    = Ok credentials /\
    getCallerIdentity (ecsTask true) "us-east-1" credentials = Ok caller /\
    Some taskIdentity = Some caller /\
    @None string = None /\
    "ECS Task Role"
    = (if isECS info then "ECS Task Role"
       else if isEKS info then "EKS Service Account"
       else if hasIamRole info then "EC2 Instance Profile"
       else if isSso (authType (regionOnlyConfig "us-east-1")) then "AWS SSO"
       else if truthy (accessKeyId (regionOnlyConfig "us-east-1")) then "Static Credentials"
       else "Default Credential Chain").
Proof.
  apply (checkCredentialStatus_available (ecsTask true) fresh
           (regionOnlyConfig "us-east-1")
           {| available := true; method := "ECS Task Role";
              identity := Some taskIdentity; error := None |});
    reflexivity.
Defined.

(** X11. The reported method names the platform, not the strategy that
    ran.  On a host that is not a container but shows an ECS variable, a
    status that is available reports [ECS Task Role] although
    [getCredentials] did not enter the platform-role strategy. *)
Theorem status_method_names_unused_role
    (w : World) (s : Service) (config : AWSCredentialConfig)
    (info : EnvironmentInfo) (status : CredentialStatus) :
  result (detectEnvironment w s) = Ok info ->
  isContainer info = false ->
  isECS info = true ->
  result (checkCredentialStatus config w s) = Ok status ->
  available status = true ->
  method status = "ECS Task Role" /\
  ~ In PlatformRole (strategies (trace (getCredentials config w s))).
Proof.
  intros Hinfo Hc Hecs Hres Havail.
  destruct (StatusFacts.available_inv w s config status Hres Havail)
    as (info' & c & caller & Hinfo' & _ & _ & _ & _ & Hm).
  rewrite Hinfo in Hinfo'. injection Hinfo' as <-.
  rewrite Hecs in Hm. split; [exact Hm|].
  rewrite (ResolverFacts.getCredentials_strategies _ _ _ _ Hinfo).
  unfold strategyFor, isProduction. rewrite Hc. cbn [andb].
  destruct (hasAwsCli info && isSso (authType config)); intros [H|[]]; discriminate.
Qed.

Lemma status_method_names_unused_role_witness :
  result (checkCredentialStatus (staticConfig None "us-east-1" "AKIA1" "s1")
            laptopWithEcsVariable fresh)
  = Ok {| available := true; method := "ECS Task Role";
          identity := Some taskIdentity; error := None |}
  /\ ~ In PlatformRole
         (strategies (trace (getCredentials (staticConfig None "us-east-1" "AKIA1" "s1")
                               laptopWithEcsVariable fresh))).
Proof.
  split; [vm_compute; reflexivity|].
  refine (proj2 (status_method_names_unused_role laptopWithEcsVariable fresh
                   (staticConfig None "us-east-1" "AKIA1" "s1")
                   {| isContainer := false; isECS := true; isEKS := false;
                      hasAwsCli := true; hasIamRole := false |}
                   {| available := true; method := "ECS Task Role";
                      identity := Some taskIdentity; error := None |} _ _ _ _ _));
    reflexivity.
Defined.

(** ** awsSsoService.ts *)

Module StringFacts2.

Lemma prefix_app_true (p rest : string) : String.prefix p (p +:+ rest) = true.
Proof.
  induction p as [|a p IH]; [destruct rest; reflexivity|].
  change (String.prefix (String a p) (String a (p +:+ rest)) = true).
  cbn [String.prefix]. destruct (ascii_dec a a); [exact IH|congruence].
Qed.

Lemma substring_prefix (a b : string) :
  String.substring 0 (String.length a) (a +:+ b) = a.
Proof.
  induction a as [|c a IH]; [destruct b; reflexivity|].
  change (String.substring 0 (S (String.length a)) (String c (a +:+ b)) = String c a).
  cbn [String.substring]. rewrite IH. reflexivity.
Qed.

Lemma app_assoc (a b c : string) : (a +:+ b) +:+ c = a +:+ (b +:+ c).
Proof.
  induction a as [|x a IH]; [reflexivity|].
  change (String x ((a +:+ b) +:+ c) = String x (a +:+ (b +:+ c))).
  rewrite IH. reflexivity.
Qed.

Lemma endsWith_app (x suffix : string) : endsWith suffix (x +:+ suffix) = true.
Proof.
  unfold endsWith. rewrite StringFacts.length_app.
  replace (String.length suffix <=? String.length x + String.length suffix)%nat
    with true by (symmetry; apply Nat.leb_le; lia).
  replace (String.length x + String.length suffix - String.length suffix)
    with (String.length x + 0) by lia.
  rewrite StringFacts.substring_skip, StringFacts.substring_whole.
  apply String.eqb_refl.
Qed.

(** The name between ["[profile "] and the last character. *)
Lemma slice_of_header (name : string) :
  slice 9 (-1) ("[profile " +:+ name +:+ "]") = name.
Proof.
  unfold slice. rewrite !StringFacts.length_app.
  change (String.length "[profile ") with 9. change (String.length "]") with 1.
  unfold sliceIndex.
  change (9 <? 0)%Z with false. change (-1 <? 0)%Z with true. cbv iota.
  match goal with
  | |- String.substring ?from ?span _ = _ =>
      replace span with (String.length name) by lia;
      replace from with (String.length "[profile " + 0)
        by (change (String.length "[profile ") with 9; lia)
  end.
  rewrite StringFacts.substring_skip. apply substring_prefix.
Qed.

End StringFacts2.

Module SsoProfileFacts.

Lemma pushProfile_keeps names line name :
  In name names -> In name (AWSSSOService.pushProfile names line).
Proof.
  intros H. unfold AWSSSOService.pushProfile.
  destruct (String.eqb (trim line) "[default]"); [apply in_or_app; auto|].
  destruct (startsWith "[profile " (trim line) && endsWith "]" (trim line));
    [apply in_or_app; auto|assumption].
Qed.

Lemma fold_keeps lines names name :
  In name names -> In name (fold_left AWSSSOService.pushProfile lines names).
Proof.
  revert names. induction lines as [|line lines IH]; intros names H; [assumption|].
  cbn [fold_left]. apply IH, pushProfile_keeps, H.
Qed.

Lemma pushProfile_header names line name :
  headerOf name line -> In name (AWSSSOService.pushProfile names line).
Proof.
  unfold AWSSSOService.pushProfile, headerOf.
  intros [[Hd ->]|Hp].
  - rewrite Hd. cbn. apply in_or_app. right. left. reflexivity.
  - rewrite Hp.
    change (String.eqb ("[profile " +:+ name +:+ "]") "[default]") with false.
    cbv iota. unfold startsWith. rewrite StringFacts2.prefix_app_true.
    rewrite <- StringFacts2.app_assoc, StringFacts2.endsWith_app.
    rewrite StringFacts2.app_assoc, StringFacts2.slice_of_header.
    cbn [andb]. apply in_or_app. right. left. reflexivity.
Qed.

Lemma fold_header lines names name line :
  In line lines -> headerOf name line ->
  In name (fold_left AWSSSOService.pushProfile lines names).
Proof.
  revert names. induction lines as [|l lines IH]; intros names Hin Hh; [destruct Hin|].
  cbn [fold_left]. destruct Hin as [->|Hin].
  - apply fold_keeps, pushProfile_header, Hh.
  - apply IH; assumption.
Qed.

End SsoProfileFacts.

(** X12. [AWSSSOService.getAvailableProfiles] reads exactly the
    well-formed headers: a name is in the list it extracts from a file if
    and only if some line of the file, trimmed, is [[default]] (for the
    name [default]) or [[profile name]]. *)
Theorem sso_profiles_are_the_headers (configContent name : string) :
  In name (AWSSSOService.profilesOf configContent)
  <-> exists line, In line (split newline configContent) /\ headerOf name line.
Proof.
  split.
  - intros H. destruct (ProfileFacts.sso_fold _ _ _ H) as [[]|?]. assumption.
  - intros (line & Hin & Hh).
    apply SsoProfileFacts.fold_header with (line := line); assumption.
Qed.

Module ConfigFileFacts.
Import AWSSSOService.

Lemma nonEmpty_Some (v : option string) (x : string) :
  nonEmpty v = Some x -> v = Some x /\ x <> EmptyString.
Proof.
  unfold nonEmpty, truthy. destruct v as [y|]; [|discriminate].
  destruct (String.eqb y EmptyString) eqn:E; [discriminate|].
  cbn [negb]. intros [= ->]. split; [reflexivity|].
  apply String.eqb_neq, E.
Qed.

Lemma complete_fields partial profile config :
  complete partial profile = Some config ->
  ssoStartUrl config <> EmptyString /\
  ssoRegion config <> EmptyString /\
  region config <> EmptyString /\
  AWSSSOService.profile config = Some profile.
Proof.
  unfold complete.
  destruct (nonEmpty (p_ssoStartUrl partial)) as [u|] eqn:Hu; [|discriminate].
  destruct (nonEmpty (p_ssoRegion partial)) as [r|] eqn:Hr; [|discriminate].
  destruct (nonEmpty (p_region partial)) as [g|] eqn:Hg; [|discriminate].
  intros [= <-]. cbn.
  apply nonEmpty_Some in Hu, Hr, Hg. tauto.
Qed.

(** Before the target header nothing is read. *)
Lemma scan_before section pre rest config :
  (forall l, In l pre -> trim l <> section) ->
  scan section (pre ++ rest) false config = scan section rest false config.
Proof.
  induction pre as [|l pre IH]; intros Hpre; [reflexivity|].
  cbn [app scan].
  destruct (String.eqb (trim l) section) eqn:E.
  - apply String.eqb_eq in E. exfalso. apply (Hpre l); [left; reflexivity|exact E].
  - rewrite andb_false_r. cbn [andb]. apply IH.
    intros l' Hl'. apply Hpre. right. exact Hl'.
Qed.

(** From the next header on nothing is read. *)
Lemma scan_until section body next tail config :
  startsWith "[" (trim next) = true ->
  trim next <> section ->
  scan section (body ++ next :: tail) true config = scan section body true config.
Proof.
  intros Hstart Hne. revert config.
  induction body as [|l body IH]; intros config.
  - cbn [app scan]. apply String.eqb_neq in Hne. rewrite Hne, Hstart. reflexivity.
  - cbn [app scan].
    destruct (String.eqb (trim l) section); [apply IH|].
    destruct (startsWith "[" (trim l)); [reflexivity|]. cbn [andb].
    destruct (includes "=" (trim l)); apply IH.
Qed.

Lemma includes_cons (c : ascii) (s : string) :
  includes "=" (String c s) = false ->
  Ascii.eqb c "=" = false /\ includes "=" s = false.
Proof.
  cbn [includes String.prefix].
  destruct (ascii_dec "=" c) as [<-|Hne].
  - destruct s; discriminate.
  - cbn [orb]. intros H. split; [|exact H].
    apply Ascii.eqb_neq. congruence.
Qed.

(** [split('=')] cuts at the first sign. *)
Lemma split_first (a rest : string) :
  includes "=" a = false ->
  split "=" (a +:+ String "=" rest) = a :: split "=" rest.
Proof.
  induction a as [|c a IH]; intros H.
  - reflexivity.
  - apply includes_cons in H as [Hc Ha].
    change (split "=" (String c (a +:+ String "=" rest)) = String c a :: split "=" rest).
    cbn [split]. rewrite Hc, (IH Ha). reflexivity.
Qed.

Lemma split_none (a : string) : includes "=" a = false -> split "=" a = [a].
Proof.
  induction a as [|c a IH]; intros H; [reflexivity|].
  apply includes_cons in H as [Hc Ha].
  cbn [split]. rewrite Hc, (IH Ha). reflexivity.
Qed.

End ConfigFileFacts.

(** X13. [getAWSConfig] never throws.  It answers [null] when the
    configuration file does not exist or cannot be read; a configuration it
    does return has a non-empty [ssoStartUrl], [ssoRegion] and [region],
    and carries the profile that was asked for ([default] when none was). *)
Theorem getAWSConfig_complete_or_null
    (w : World) (s : AWSSSOService.Service) (profile : option string) :
  exists answer,
    result (AWSSSOService.getAWSConfig profile w s) = Ok answer /\
    (existsSync w (awsConfigPath w) = false -> answer = None) /\
    (forall e, readFileSync w (awsConfigPath w) = Throw e -> answer = None) /\
    (forall config, answer = Some config ->
       AWSSSOService.ssoStartUrl config <> EmptyString /\
       AWSSSOService.ssoRegion config <> EmptyString /\
       AWSSSOService.region config <> EmptyString /\
       AWSSSOService.profile config = Some (default "default" profile)).
Proof.
  unfold AWSSSOService.getAWSConfig. run.
  destruct (existsSync w (awsConfigPath w)) eqn:Hex.
  - destruct (readFileSync w (awsConfigPath w)) as [content|e] eqn:Hread.
    + eexists. split; [reflexivity|].
      split; [discriminate|]. split; [discriminate|].
      intros config Hc. unfold AWSSSOService.configOf in Hc.
      apply ConfigFileFacts.complete_fields in Hc. exact Hc.
    + eexists. split; [reflexivity|].
      split; [reflexivity|]. split; [reflexivity|]. discriminate.
  - eexists. split; [reflexivity|].
    split; [reflexivity|]. split; [reflexivity|]. discriminate.
Qed.

(** X14. [getAWSConfig] reads one section only.  Of the lines of the file,
    those before the first header equal to the target are ignored, and so
    is everything from the next line that starts with a bracket: the
    configuration is built from the lines in between. *)
Theorem getAWSConfig_reads_one_section
    (section : string) (pre body tail : list string) (header next : string)
    (config : AWSSSOService.PartialConfig) :
  (forall l, In l pre -> trim l <> section) ->
  trim header = section ->
  startsWith "[" (trim next) = true ->
  trim next <> section ->
  AWSSSOService.scan section (pre ++ header :: body ++ next :: tail) false config
  = AWSSSOService.scan section body true config.
Proof.
  intros Hpre Hheader Hstart Hne.
  rewrite ConfigFileFacts.scan_before by exact Hpre.
  cbn [AWSSSOService.scan]. rewrite Hheader, String.eqb_refl.
  apply ConfigFileFacts.scan_until; assumption.
Qed.

Lemma getAWSConfig_reads_one_section_witness :
  AWSSSOService.scan "[profile test-sso]" SsoSamples.testConfigLines false
    AWSSSOService.emptyConfig
  = {| AWSSSOService.p_ssoStartUrl := Some "https://test.awsapps.com/start";
       AWSSSOService.p_ssoRegion := Some "us-east-1";
       AWSSSOService.p_ssoAccountId := Some "123456789012";
       AWSSSOService.p_ssoRoleName := Some "TestRole";
       AWSSSOService.p_region := Some "us-west-2" |}.
Proof.
  refine (eq_trans
            (getAWSConfig_reads_one_section "[profile test-sso]"
               [ "[default]"; "region = us-east-1"; EmptyString ]
               [ "sso_start_url = https://test.awsapps.com/start";
                 "sso_region = us-east-1";
                 "sso_account_id = 123456789012";
                 "sso_role_name = TestRole";
                 "region = us-west-2" ]
               [ "region = eu-west-1" ]
               "[profile test-sso]" "[profile other]" AWSSSOService.emptyConfig
               _ _ _ _) _).
  - intros l [<-|[<-|[<-|[]]]]; vm_compute; discriminate.
  - reflexivity.
  - reflexivity.
  - vm_compute. discriminate.
  - reflexivity.
Defined.

(** X15. A line of a section is cut at its first two [=] signs: the key is
    the trimmed text before the first, the value the trimmed text between
    the first and the second, and what follows a second sign is dropped. *)
Theorem getAWSConfig_value_ends_at_second_sign
    (config : AWSSSOService.PartialConfig) (key value rest : string) :
  includes "=" key = false ->
  includes "=" value = false ->
  AWSSSOService.assignLine config (key +:+ String "=" (value +:+ String "=" rest))
  = AWSSSOService.assign config (trim key) (Some (trim value))
  /\ AWSSSOService.assignLine config (key +:+ String "=" value)
     = AWSSSOService.assign config (trim key) (Some (trim value)).
Proof.
  intros Hkey Hvalue. unfold AWSSSOService.assignLine.
  rewrite (ConfigFileFacts.split_first key (value +:+ String "=" rest) Hkey).
  rewrite (ConfigFileFacts.split_first value rest Hvalue).
  rewrite (ConfigFileFacts.split_first key value Hkey).
  rewrite (ConfigFileFacts.split_none value Hvalue).
  split; reflexivity.
Qed.

Lemma getAWSConfig_value_ends_at_second_sign_witness :
  AWSSSOService.assignLine AWSSSOService.emptyConfig
    "sso_start_url = https://test.awsapps.com/start?next=console"
  = AWSSSOService.assign AWSSSOService.emptyConfig "sso_start_url"
      (Some "https://test.awsapps.com/start?next").
Proof.
  exact (proj1 (getAWSConfig_value_ends_at_second_sign AWSSSOService.emptyConfig
                  "sso_start_url " " https://test.awsapps.com/start?next" "console"
                  eq_refl eq_refl)).
Defined.

(** Unfolds the operations of [AWSSSOService.T]. *)
Ltac runT :=
  unfold AWSSSOService.isAwsCliAvailable in *;
  unfold mbind, mret, AWSSSOService.T_bind, AWSSSOService.T_ret,
    AWSSSOService.attempt, AWSSSOService.raise, AWSSSOService.step,
    AWSSSOService.execBoth in *;
  cbn beta iota zeta in *.

(** X16. [isSSOSessionActive] never throws.  It answers [true] exactly when
    [aws --version] and then [aws sts get-caller-identity] (with
    [--profile] for a non-empty profile) both succeed; when the CLI is
    missing the identity command is not run; every failure is a warning on
    the console and the answer [false]. *)
Theorem isSSOSessionActive_answer
    (w : World) (sdk : AWSSSOService.Sdk) (profile : option string) :
  let command := match nonEmpty profile with
                 | Some p => "aws sts get-caller-identity --profile " +:+ p
                 | None => "aws sts get-caller-identity"
                 end in
  AWSSSOService.isSSOSessionActive profile w sdk
  = match execAsync w "aws --version" with
    | Throw _ =>
        (Ok false,
         [AWSSSOService.Executed "aws --version";
          AWSSSOService.Warned "SSO session not active:"])
    | Ok _ =>
        match execAsync w command with
        | Ok _ =>
            (Ok true,
             [AWSSSOService.Executed "aws --version"; AWSSSOService.Executed command])
        | Throw _ =>
            (Ok false,
             [AWSSSOService.Executed "aws --version"; AWSSSOService.Executed command;
              AWSSSOService.Warned "SSO session not active:"])
        end
    end.
Proof.
  intros command.
  unfold AWSSSOService.isSSOSessionActive, AWSSSOService.identityCommand.
  fold command. runT.
  destruct (execAsync w "aws --version"); [|reflexivity].
  cbn. destruct (execAsync w command); reflexivity.
Qed.

(** X17. [loginSSO] runs [aws sso login] only when [aws --version]
    succeeded.  Each failure is rethrown by the method's own handler under
    the prefix [AWS SSO login failed: ]: the missing CLI, the failure of
    the command, and a standard error that mentions [error], whose message
    already carries the prefix and so gets it twice. *)
Theorem loginSSO_outcome
    (w : World) (sdk : AWSSSOService.Sdk) (profile : option string) :
  let command := match nonEmpty profile with
                 | Some p => "aws sso login --profile " +:+ p
                 | None => "aws sso login"
                 end in
  let stderr := AWSSSOService.stderrOf sdk command in
  (AWSSSOService.loginSSO profile w sdk).1
  = match execAsync w "aws --version" with
    | Throw _ =>
        Throw (JsError "AWS SSO login failed: AWS CLI is not installed or not available in PATH. Please install AWS CLI first.")
    | Ok _ =>
        match execAsync w command with
        | Throw e => Throw (JsError ("AWS SSO login failed: " +:+ errorMessage e))
        | Ok _ =>
            if negb (String.eqb stderr EmptyString) && includes "error" stderr
            then Throw (JsError ("AWS SSO login failed: AWS SSO login failed: " +:+ stderr))
            else Ok tt
        end
    end
  /\ (forall e, execAsync w "aws --version" = Throw e ->
        (AWSSSOService.loginSSO profile w sdk).2
        = [AWSSSOService.Executed "aws --version";
           AWSSSOService.Failed "AWS SSO login failed:"]).
Proof.
  intros command stderr.
  unfold AWSSSOService.loginSSO, AWSSSOService.loginCommand.
  fold command. runT. subst stderr.
  destruct (execAsync w "aws --version") as [out|e0]; cbn.
  - split; [|discriminate].
    destruct (execAsync w command) as [out'|e1]; cbn; [|reflexivity].
    destruct (negb (String.eqb (AWSSSOService.stderrOf sdk command) EmptyString)
              && includes "error" (AWSSSOService.stderrOf sdk command));
      reflexivity.
  - split; [reflexivity|]. intros _ _. reflexivity.
Qed.

(** X18. [getSSOCredentials] asks [fromIni] when the configuration has a
    non-empty profile and [fromSSO] otherwise, in both cases without a
    client configuration.  A credential it returns has exactly the
    properties [accessKeyId], [secretAccessKey], [sessionToken] and
    [region], the region being that of the configuration; a failure of the
    provider is rethrown under the prefix [Failed to get SSO credentials: ]. *)
Theorem getSSOCredentials_outcome
    (w : World) (sdk : AWSSSOService.Sdk) (config : AWSSSOService.AWSSSOConfig) :
  let provided :=
    match nonEmpty (AWSSSOService.profile config) with
    | Some p => AWSSSOService.fromIniProfile sdk p
    | None =>
        AWSSSOService.fromSSODirect sdk (AWSSSOService.ssoStartUrl config)
          (AWSSSOService.ssoRegion config) (AWSSSOService.ssoAccountId config)
          (AWSSSOService.ssoRoleName config)
    end in
  (AWSSSOService.getSSOCredentials config w sdk).1
  = match provided with
    | Ok credentials =>
        Ok (AWSSSOService.withRegion credentials (AWSSSOService.region config))
    | Throw e => Throw (JsError ("Failed to get SSO credentials: " +:+ errorMessage e))
    end
  /\ forall returned,
       (AWSSSOService.getSSOCredentials config w sdk).1 = Ok returned ->
       returned !! "region" = Some (JsString (AWSSSOService.region config)) /\
       dom returned = {[ "accessKeyId"; "secretAccessKey"; "sessionToken"; "region" ]}.
Proof.
  intros provided.
  assert (Hrun : (AWSSSOService.getSSOCredentials config w sdk).1
                 = match provided with
                   | Ok credentials =>
                       Ok (AWSSSOService.withRegion credentials
                             (AWSSSOService.region config))
                   | Throw e =>
                       Throw (JsError ("Failed to get SSO credentials: "
                                       +:+ errorMessage e))
                   end).
  { unfold AWSSSOService.getSSOCredentials, provided. runT.
    destruct (nonEmpty (AWSSSOService.profile config)) as [p|]; cbn.
    - destruct (AWSSSOService.fromIniProfile sdk p); reflexivity.
    - destruct (AWSSSOService.fromSSODirect sdk _ _ _ _); reflexivity. }
  split; [exact Hrun|].
  intros returned Hret. rewrite Hrun in Hret.
  destruct provided as [credentials|e]; [|discriminate].
  injection Hret as <-. unfold AWSSSOService.withRegion. split.
  - rewrite !lookup_insert_ne by discriminate. apply lookup_insert_eq.
  - rewrite !dom_insert_L, dom_empty_L. set_solver.
Qed.

(** ** amazon-bedrock.ts: what the parsers return and throw *)

Module ParserFacts.

Lemma nonEmpty_not_empty (v : option string) (x : string) :
  nonEmpty v = Some x -> x <> EmptyString.
Proof. intros H. apply ConfigFileFacts.nonEmpty_Some in H. tauto. Qed.

Lemma nonEmpty_None_iff (v : option string) : nonEmpty v = None <-> truthy v = false.
Proof.
  unfold nonEmpty. destruct (truthy v) eqn:E; [|tauto].
  destruct v; [|discriminate]. split; discriminate.
Qed.

Lemma nonEmpty_idem (v : option string) : truthy (nonEmpty v) = truthy v.
Proof. unfold nonEmpty. destruct (truthy v) eqn:E; [exact E|reflexivity]. Qed.

End ParserFacts.

Module AcceptedStatic.

Lemma static_accepted
    (JSON_parse : Json.Parser) (apiKey : string) :
  (forall config,
      BedrockStatic._parseAndValidateConfig JSON_parse apiKey = Ok config ->
      BedrockStatic.region config <> EmptyString /\
      truthy (BedrockStatic.accessKeyId config)
      = truthy (BedrockStatic.secretAccessKey config) /\
      (BedrockStatic.accessKeyId config = None
       <-> BedrockStatic.secretAccessKey config = None)) /\
  (forall serverEnv config,
      BedrockEnvRegion._parseAndValidateConfig JSON_parse apiKey serverEnv = Ok config ->
      BedrockEnvRegion.region config <> EmptyString).
Proof.
  split.
  - intros config. unfold BedrockStatic._parseAndValidateConfig.
    destruct (JSON_parse apiKey) as [parsed|]; [|discriminate].
    destruct (nonEmpty (Json.region parsed)) as [r|] eqn:Hr; [|discriminate].
    destruct (truthy (Json.accessKeyId parsed)) eqn:Ha,
             (truthy (Json.secretAccessKey parsed)) eqn:Hk;
      cbn [orb andb negb]; try discriminate;
      intros [= <-]; cbn;
      rewrite !ParserFacts.nonEmpty_idem, Ha, Hk;
      (split; [exact (ParserFacts.nonEmpty_not_empty _ _ Hr)|]);
      (split; [reflexivity|]);
      rewrite !ParserFacts.nonEmpty_None_iff, Ha, Hk; tauto.
  - intros serverEnv config. unfold BedrockEnvRegion._parseAndValidateConfig.
    destruct (JSON_parse apiKey) as [parsed|]; [|discriminate].
    destruct (nonEmpty (BedrockEnvRegion.regionOf parsed serverEnv)) as [r|] eqn:Hr;
      [|discriminate].
    intros [= <-]. exact (ParserFacts.nonEmpty_not_empty _ _ Hr).
Qed.

End AcceptedStatic.

(** X19. A configuration accepted by the parser of part_000 has a
    non-empty region and either both keys or neither, each non-empty when
    present; one accepted by the parser of part_002 has a non-empty region,
    but may carry one key without the other. *)
Theorem accepted_static_configuration
    (JSON_parse : Json.Parser) (apiKey : string) :
  (forall config,
      BedrockStatic._parseAndValidateConfig JSON_parse apiKey = Ok config ->
      BedrockStatic.region config <> EmptyString /\
      truthy (BedrockStatic.accessKeyId config)
      = truthy (BedrockStatic.secretAccessKey config) /\
      (BedrockStatic.accessKeyId config = None
       <-> BedrockStatic.secretAccessKey config = None)) /\
  (forall serverEnv config,
      BedrockEnvRegion._parseAndValidateConfig JSON_parse apiKey serverEnv = Ok config ->
      BedrockEnvRegion.region config <> EmptyString).
Proof. apply AcceptedStatic.static_accepted. Qed.

Module AcceptedSSO.

Lemma sso_accepted
    (JSON_parse : Json.Parser) (apiKey : string) (config : BedrockSSO.Config) :
  BedrockSSO._parseAndValidateConfig JSON_parse apiKey = Ok config ->
  match config with
  | BedrockSSO.StaticConfig c =>
      BedrockSSO.region c <> EmptyString /\
      BedrockSSO.accessKeyId c <> EmptyString /\
      BedrockSSO.secretAccessKey c <> EmptyString
  | BedrockSSO.SSOConfig c =>
      BedrockSSO.sso_region c <> EmptyString /\
      (BedrockSSO.sso_authType c = "sso" \/ BedrockSSO.sso_authType c = "auto") /\
      (BedrockSSO.sso_authType c = "sso" ->
       truthy (BedrockSSO.sso_profile c) = true \/
       (truthy (BedrockSSO.ssoStartUrl c) = true /\
        truthy (BedrockSSO.ssoRegion c) = true))
  end.
Proof.
  unfold BedrockSSO._parseAndValidateConfig.
  destruct (JSON_parse apiKey) as [parsed|]; [|discriminate].
  destruct (BedrockSSO.ssoOrAuto (Json.authType parsed)) as [a|] eqn:Hauth.
  - assert (Ha : a = "sso" \/ a = "auto").
    { unfold BedrockSSO.ssoOrAuto in Hauth.
      destruct (Json.authType parsed) as [x|]; [|discriminate].
      destruct (String.eqb x "sso") eqn:E1; cbn [orb] in Hauth.
      - injection Hauth as <-. left. apply String.eqb_eq, E1.
      - destruct (String.eqb x "auto") eqn:E2; [|discriminate].
        injection Hauth as <-. right. apply String.eqb_eq, E2. }
    destruct (nonEmpty (Json.region parsed)) as [r|] eqn:Hr; [|discriminate].
    destruct (String.eqb a "sso" && negb (truthy (Json.profile parsed))
              && (negb (truthy (Json.ssoStartUrl parsed))
                  || negb (truthy (Json.ssoRegion parsed)))) eqn:Hcheck;
      [discriminate|].
    intros [= <-]. cbn.
    split; [exact (ParserFacts.nonEmpty_not_empty _ _ Hr)|].
    split; [exact Ha|].
    intros ->. cbn in Hcheck.
    destruct (truthy (Json.profile parsed)); [left; reflexivity|].
    destruct (truthy (Json.ssoStartUrl parsed)), (truthy (Json.ssoRegion parsed));
      try discriminate.
    right. split; reflexivity.
  - destruct (nonEmpty (Json.region parsed)) as [r|] eqn:Hr; [|discriminate].
    destruct (nonEmpty (Json.accessKeyId parsed)) as [k|] eqn:Hk; [|discriminate].
    destruct (nonEmpty (Json.secretAccessKey parsed)) as [x|] eqn:Hx; [|discriminate].
    intros [= <-]. cbn.
    repeat split; eapply ParserFacts.nonEmpty_not_empty; eassumption.
Qed.

End AcceptedSSO.

(** X20. A configuration accepted by the parser of part_001 is of one of
    two shapes.  The static one has a non-empty region, [accessKeyId] and
    [secretAccessKey].  The other has a non-empty region and [authType]
    ['sso'] or ['auto'], and for ['sso'] a non-empty profile or both a
    non-empty [ssoStartUrl] and [ssoRegion]. *)
Theorem accepted_sso_configuration
    (JSON_parse : Json.Parser) (apiKey : string) (config : BedrockSSO.Config) :
  BedrockSSO._parseAndValidateConfig JSON_parse apiKey = Ok config ->
  match config with
  | BedrockSSO.StaticConfig c =>
      BedrockSSO.region c <> EmptyString /\
      BedrockSSO.accessKeyId c <> EmptyString /\
      BedrockSSO.secretAccessKey c <> EmptyString
  | BedrockSSO.SSOConfig c =>
      BedrockSSO.sso_region c <> EmptyString /\
      (BedrockSSO.sso_authType c = "sso" \/ BedrockSSO.sso_authType c = "auto") /\
      (BedrockSSO.sso_authType c = "sso" ->
       truthy (BedrockSSO.sso_profile c) = true \/
       (truthy (BedrockSSO.ssoStartUrl c) = true /\
        truthy (BedrockSSO.ssoRegion c) = true))
  end.
Proof. apply AcceptedSSO.sso_accepted. Qed.

Lemma accepted_sso_configuration_witness :
  BedrockSSO.sso_region
    {| BedrockSSO.sso_authType := "auto"; BedrockSSO.sso_profile := None;
       BedrockSSO.sso_region := "us-west-2"; BedrockSSO.ssoStartUrl := None;
       BedrockSSO.ssoRegion := None; BedrockSSO.ssoAccountId := None;
       BedrockSSO.ssoRoleName := None |} <> EmptyString.
Proof.
  exact (proj1 (accepted_sso_configuration
                  (parses autoAndRegionText autoAndRegion) autoAndRegionText
                  (BedrockSSO.SSOConfig
                     {| BedrockSSO.sso_authType := "auto"; BedrockSSO.sso_profile := None;
                        BedrockSSO.sso_region := "us-west-2";
                        BedrockSSO.ssoStartUrl := None;
                        BedrockSSO.ssoRegion := None; BedrockSSO.ssoAccountId := None;
                        BedrockSSO.ssoRoleName := None |})
                  eq_refl)).
Defined.


(** ** amazon-bedrock.ts: what reaches [createAmazonBedrock] *)

(** X22. In part_002 explicit credentials reach [createAmazonBedrock] only
    when both keys are non-empty; otherwise only the region is passed, and
    a lone key or a session token without both keys is dropped without an
    error.  An absent or empty configuration string is read as [{}]. *)
Theorem envRegion_instance_settings
    (JSON_parse : Json.Parser) (apiKey : option string)
    (serverEnv : gmap string string) (model : string)
    (parsed : Json.ParsedConfig) (region : string) :
  JSON_parse (match nonEmpty apiKey with Some key => key | None => "{}" end)
  = Ok parsed ->
  nonEmpty (BedrockEnvRegion.regionOf parsed serverEnv) = Some region ->
  BedrockEnvRegion.getModelInstance JSON_parse apiKey serverEnv model
  = Ok (match nonEmpty (Json.accessKeyId parsed),
              nonEmpty (Json.secretAccessKey parsed) with
        | Some a, Some k =>
            BedrockEnvRegion.Explicit region a k (nonEmpty (Json.sessionToken parsed))
        | _, _ => BedrockEnvRegion.OptionsOnly region
        end, model).
Proof.
  intros Hparse Hregion.
  unfold BedrockEnvRegion.getModelInstance, BedrockEnvRegion._parseAndValidateConfig,
    BedrockEnvRegion.configString.
  rewrite Hparse, Hregion. cbn.
  destruct (nonEmpty (Json.accessKeyId parsed)) as [a|] eqn:Ha;
    [|rewrite (nonEmpty_falsy None) by reflexivity; reflexivity].
  rewrite (nonEmpty_truthy (Some a))
    by (rewrite <- Ha, ParserFacts.nonEmpty_idem;
        destruct (truthy (Json.accessKeyId parsed)) eqn:E; [reflexivity|];
        rewrite (nonEmpty_falsy _ E) in Ha; discriminate).
  destruct (nonEmpty (Json.secretAccessKey parsed)) as [k|] eqn:Hk;
    [|rewrite (nonEmpty_falsy None) by reflexivity; reflexivity].
  rewrite (nonEmpty_truthy (Some k))
    by (rewrite <- Hk, ParserFacts.nonEmpty_idem;
        destruct (truthy (Json.secretAccessKey parsed)) eqn:E; [reflexivity|];
        rewrite (nonEmpty_falsy _ E) in Hk; discriminate).
  reflexivity.
Qed.

Lemma envRegion_instance_settings_witness :
  BedrockEnvRegion.getModelInstance (parses regionAndAccessKeyText regionAndAccessKey)
    (Some regionAndAccessKeyText) ∅ "amazon.nova-pro-v1:0"
  = Ok (BedrockEnvRegion.OptionsOnly "us-east-1", "amazon.nova-pro-v1:0").
Proof.
  apply (envRegion_instance_settings (parses regionAndAccessKeyText regionAndAccessKey)
           (Some regionAndAccessKeyText) ∅ "amazon.nova-pro-v1:0"
           regionAndAccessKey "us-east-1").
  - vm_compute. reflexivity.
  - reflexivity.
Defined.

(** X23. In part_001 the configuration handed to the credential service by
    the [credentials] function of an SSO or auto instance has the region
    passed to [createAmazonBedrock], which is not empty, [authType] ['sso']
    or ['auto'], and no static key or session token.  For ['sso'] it has a
    profile or a start URL, so the local-SSO strategy always reaches a
    credential provider: the resolver's own incomplete-SSO error cannot
    occur on this path. *)
Theorem sso_instance_credentials
    (JSON_parse : Json.Parser) (apiKey : option string) (model model' region : string)
    (credentialConfig : AWSCredentialConfig) :
  BedrockSSO.getModelInstance JSON_parse apiKey model
  = Ok (BedrockSSO.Credentialed region credentialConfig, model') ->
  model' = model /\
  AWSCredentialService.region credentialConfig = region /\
  region <> EmptyString /\
  (authType credentialConfig = Some Sso \/ authType credentialConfig = Some Auto) /\
  accessKeyId credentialConfig = None /\
  secretAccessKey credentialConfig = None /\
  sessionToken credentialConfig = None /\
  (authType credentialConfig = Some Sso ->
   forall w s,
     existsb providerCall (trace (getDevelopmentSSOCredentials credentialConfig w s))
     = true).
Proof.
  unfold BedrockSSO.getModelInstance.
  destruct (nonEmpty apiKey) as [key|]; [|discriminate].
  destruct (BedrockSSO._parseAndValidateConfig JSON_parse key) as [[c|c]|] eqn:Hparse;
    try discriminate.
  pose proof (AcceptedSSO.sso_accepted _ _ _ Hparse) as (Hregion & Hauth & Hsso).
  destruct (String.eqb (BedrockSSO.sso_authType c) "sso"
            || String.eqb (BedrockSSO.sso_authType c) "auto"); [|discriminate].
  intros [= <- <- <-]. cbn.
  split; [reflexivity|]. split; [reflexivity|]. split; [exact Hregion|].
  split.
  { destruct (String.eqb (BedrockSSO.sso_authType c) "sso"); auto. }
  split; [reflexivity|]. split; [reflexivity|]. split; [reflexivity|].
  intros Hs w s.
  assert (Hc : BedrockSSO.sso_authType c = "sso").
  { destruct (String.eqb (BedrockSSO.sso_authType c) "sso") eqn:E.
    - apply String.eqb_eq, E.
    - discriminate. }
  rewrite StrategyFacts.getDevelopmentSSOCredentials_run. cbn.
  destruct (Hsso Hc) as [Hp|[Hu _]].
  - rewrite (nonEmpty_truthy _ Hp).
    destruct (BedrockSSO.sso_profile c); [reflexivity|discriminate].
  - destruct (nonEmpty (BedrockSSO.sso_profile c)); [reflexivity|].
    rewrite (nonEmpty_truthy _ Hu).
    destruct (BedrockSSO.ssoStartUrl c); [reflexivity|discriminate].
Qed.

Lemma sso_instance_credentials_witness :
  AWSCredentialService.region (BedrockSSO.credentialConfigOf
    {| BedrockSSO.sso_authType := "auto"; BedrockSSO.sso_profile := None;
       BedrockSSO.sso_region := "us-west-2"; BedrockSSO.ssoStartUrl := None;
       BedrockSSO.ssoRegion := None; BedrockSSO.ssoAccountId := None;
       BedrockSSO.ssoRoleName := None |}) = "us-west-2".
Proof.
  refine (proj1 (proj2 (sso_instance_credentials
                          (parses autoAndRegionText autoAndRegion)
                          (Some autoAndRegionText) "m" "m" "us-west-2" _ _))).
  vm_compute. reflexivity.
Defined.

(** X24. In part_000 (second copy of the class) [getModelInstance] never
    hands a lone key or an empty region to [createAmazonBedrock], whether
    the configuration comes from the configuration string or, when that is
    absent or blank, from the environment; on the environment path it never
    throws, the region defaults to [us-east-1], and the session token is
    passed only together with both keys. *)
Theorem static_instance_settings
    (JSON_parse : Json.Parser) (apiKey : option string)
    (serverEnv : option (gmap string string)) (process_env : gmap string string)
    (model : string) :
  (forall config model',
      BedrockStatic.getModelInstance JSON_parse apiKey serverEnv process_env model
      = Ok (config, model') ->
      model' = model /\
      BedrockStatic.region config <> EmptyString /\
      truthy (BedrockStatic.accessKeyId config)
      = truthy (BedrockStatic.secretAccessKey config)) /\
  (match nonEmpty apiKey with
   | Some key => String.length (trim key) = 0
   | None => True
   end ->
   exists config,
     BedrockStatic.getModelInstance JSON_parse apiKey serverEnv process_env model
     = Ok (config, model) /\
     (truthy (BedrockStatic.fromEnv serverEnv process_env "AWS_REGION") = false ->
      BedrockStatic.region config = "us-east-1") /\
     (BedrockStatic.sessionToken config <> None ->
      truthy (BedrockStatic.accessKeyId config) = true)).
Proof.
  assert (Henv : let config := BedrockStatic.environmentConfig serverEnv process_env in
                 BedrockStatic.region config <> EmptyString /\
                 truthy (BedrockStatic.accessKeyId config)
                 = truthy (BedrockStatic.secretAccessKey config) /\
                 (truthy (BedrockStatic.fromEnv serverEnv process_env "AWS_REGION") = false ->
                  BedrockStatic.region config = "us-east-1") /\
                 (BedrockStatic.sessionToken config <> None ->
                  truthy (BedrockStatic.accessKeyId config) = true)).
  { unfold BedrockStatic.environmentConfig.
    set (r := BedrockStatic.fromEnv serverEnv process_env "AWS_REGION").
    assert (Hr : default "us-east-1" (nonEmpty r) <> EmptyString).
    { destruct (nonEmpty r) as [x|] eqn:E; cbn; [|discriminate].
      exact (ParserFacts.nonEmpty_not_empty _ _ E). }
    assert (Hd : truthy r = false -> default "us-east-1" (nonEmpty r) = "us-east-1").
    { intros E. rewrite (nonEmpty_falsy _ E). reflexivity. }
    destruct (truthy (BedrockStatic.fromEnv serverEnv process_env "AWS_ACCESS_KEY_ID"))
      eqn:Ha;
      destruct (truthy (BedrockStatic.fromEnv serverEnv process_env "AWS_SECRET_ACCESS_KEY"))
        eqn:Hk; cbn; rewrite ?Ha, ?Hk; repeat split; auto; congruence. }
  split.
  - intros config model'. unfold BedrockStatic.getModelInstance.
    destruct (nonEmpty apiKey) as [key|].
    + destruct (0 <? String.length (trim key))%nat.
      * destruct (BedrockStatic._parseAndValidateConfig JSON_parse key) as [c|] eqn:Hp;
          [|discriminate].
        intros [= <- <-].
        destruct (proj1 (AcceptedStatic.static_accepted JSON_parse key) c Hp)
          as (Hr & Hkeys & _).
        auto.
      * intros [= <- <-]. split; [reflexivity|]. split; apply Henv.
    + intros [= <- <-]. split; [reflexivity|]. split; apply Henv.
  - intros Hblank. exists (BedrockStatic.environmentConfig serverEnv process_env).
    split; [|split; apply Henv].
    unfold BedrockStatic.getModelInstance.
    destruct (nonEmpty apiKey) as [key|]; [|reflexivity].
    rewrite Hblank. reflexivity.
Qed.

(** X25. The profile and the SSO fields of a configuration are read only
    when [authType] is ['sso']: two configurations of another [authType]
    that agree on the region, the two keys and the session token give the
    same run of [getCredentials], so with ['auto'] a profile is never
    used. *)
Theorem sso_fields_read_only_for_sso
    (w : World) (s : Service) (config1 config2 : AWSCredentialConfig) :
  isSso (authType config1) = false ->
  isSso (authType config2) = false ->
  region config1 = region config2 ->
  accessKeyId config1 = accessKeyId config2 ->
  secretAccessKey config1 = secretAccessKey config2 ->
  sessionToken config1 = sessionToken config2 ->
  getCredentials config1 w s = getCredentials config2 w s.
Proof.
  intros H1 H2 Hr Ha Hk Ht.
  destruct (DetectFacts.detectEnvironment_total w s) as (info & t0 & Hd & _).
  rewrite !(ResolverFacts.getCredentials_run _ _ _ _ _ _ Hd).
  assert (Hsel : selected info config1 w {| environmentInfo := Some info |}
                 = selected info config2 w {| environmentInfo := Some info |}).
  { unfold selected, strategyFor. rewrite H1, H2, andb_false_r.
    destruct (isProduction info).
    - rewrite !ResolverFacts.getProductionCredentials_run, Hr. reflexivity.
    - rewrite !StrategyFacts.getFallbackCredentials_run, Hr, Ha, Hk, Ht. reflexivity. }
  rewrite Hsel. reflexivity.
Qed.

Lemma sso_fields_read_only_for_sso_witness :
  getCredentials
    {| authType := Some Auto; region := "us-east-1"; profile := Some "dev";
       ssoStartUrl := None; ssoRegion := None; ssoAccountId := None;
       ssoRoleName := None; accessKeyId := None; secretAccessKey := None;
       sessionToken := None; roleArn := None; externalId := None |}
    (laptop "[profile dev]") fresh
  = getCredentials (regionOnlyConfig "us-east-1") (laptop "[profile dev]") fresh.
Proof.
  apply sso_fields_read_only_for_sso; reflexivity.
Defined.

(** ** The routes *)

Module RouteFacts.

(** [checkCredentialStatus] returns, and leaves the detected environment
    in the cache. *)
Lemma checkCredentialStatus_returns config w s :
  exists report info t,
    checkCredentialStatus config w s
    = (Ok report, {| environmentInfo := Some info |}, t) /\
    result (detectEnvironment w s) = Ok info.
Proof.
  destruct (StrategyFacts.getCredentials_instance config w w s)
    as (info & Hinfo & Hinst & Hdet).
  unfold checkCredentialStatus.
  destruct (getCredentials config w s) as [[[c|e] s1] t1] eqn:Hg;
    cbn [instance fst snd] in Hinst, Hdet; subst s1.
  - destruct (getCallerIdentity w (region config) c) as [caller|e] eqn:Hid;
      run; rewrite Hg, Hdet, Hid; eauto.
  - run. rewrite Hg. eauto.
Qed.


(** On a warmed instance of a host with the CLI that is no container,
    [initiateSSORLogin] is its one command. *)
Lemma initiateSSORLogin_warm profile w info :
  hasAwsCli info = true ->
  isContainer info = false ->
  exists t,
    initiateSSORLogin profile w {| environmentInfo := Some info |}
    = (match execAsync w (loginCommand profile) with
       | Ok _ => Ok tt
       | Throw e => Throw (JsError ("AWS SSO login failed: " +:+ errorMessage e))
       end, {| environmentInfo := Some info |}, t).
Proof.
  intros Hcli Hc. unfold initiateSSORLogin.
  erewrite bind_ok by apply DetectFacts.detectEnvironment_cached.
  rewrite Hcli, Hc. cbn [negb]. run.
  destruct (execAsync w (loginCommand profile)); eauto.
Qed.

End RouteFacts.

(** X26. The status route answers every request.  Any method but POST gets
    405 and the service is not touched; a POST whose body cannot be read
    gets 500; every other POST gets 200 with the report of
    [checkCredentialStatus] and the detected environment, so a failure
    to resolve credentials is never a 500. *)
Theorem statusAction_answers
    (request : Routes.Request Routes.StatusRequest) (w : World) (s : Service) :
  exists response,
    result (Routes.statusAction request w s) = Ok response /\
    Routes.status response
    = (if String.eqb (Routes.method request) "POST"
       then match Routes.json request with Ok _ => 200 | Throw _ => 500 end
       else 405) /\
    (String.eqb (Routes.method request) "POST" = false ->
     Routes.statusAction request w s
     = (Ok {| Routes.status := 405; Routes.body := Routes.StatusMethodNotAllowed |},
        s, [])) /\
    (forall requestData,
        String.eqb (Routes.method request) "POST" = true ->
        Routes.json request = Ok requestData ->
        exists report info,
          result (checkCredentialStatus (Routes.statusConfig requestData) w s) = Ok report /\
          result (detectEnvironment w s) = Ok info /\
          Routes.body response = Routes.StatusReport report info).
Proof.
  unfold Routes.statusAction.
  destruct (String.eqb (Routes.method request) "POST"); cbn [negb].
  - destruct (Routes.json request) as [requestData|e] eqn:Hjson.
    + destruct (RouteFacts.checkCredentialStatus_returns
                  (Routes.statusConfig requestData) w s)
        as (report & info & t & Hcheck & Hinfo).
      eexists. split.
      { unfold Routes.await. run. rewrite Hcheck.
        rewrite DetectFacts.detectEnvironment_cached. reflexivity. }
      split; [reflexivity|]. split; [discriminate|].
      intros requestData' _ [= <-]. exists report, info.
      rewrite Hcheck. repeat split; assumption || reflexivity.
    + eexists. split; [unfold Routes.await; run; reflexivity|].
      split; [reflexivity|]. split; discriminate.
  - eexists. split; [reflexivity|]. split; [reflexivity|].
    split; [reflexivity|]. discriminate.
Qed.

(** X27. The login route answers every request: 405 for a method other
    than POST, 500 for an unreadable body, 400 in a container or without
    the AWS CLI, and otherwise 200 or 500 as the one [aws sso login]
    command succeeds or fails.  A request that is refused with 400 runs
    nothing beyond detection. *)
Theorem loginAction_answers
    (request : Routes.Request Routes.LoginRequest) (w : World) (s : Service) :
  exists response info,
    result (Routes.loginAction request w s) = Ok response /\
    result (detectEnvironment w s) = Ok info /\
    Routes.status response
    = (if String.eqb (Routes.method request) "POST"
       then match Routes.json request with
            | Throw _ => 500
            | Ok requestData =>
                if isContainer info || negb (hasAwsCli info) then 400
                else match execAsync w (loginCommand (Routes.lr_profile requestData)) with
                     | Ok _ => 200
                     | Throw _ => 500
                     end
            end
       else 405) /\
    (Routes.status response = 400 ->
     trace (Routes.loginAction request w s) = trace (detectEnvironment w s)).
Proof.
  destruct (DetectFacts.detectEnvironment_total w s) as (info & t0 & Hd & _).
  unfold Routes.loginAction.
  destruct (String.eqb (Routes.method request) "POST"); cbn [negb].
  - destruct (Routes.json request) as [requestData|e] eqn:Hjson.
    + destruct (isContainer info) eqn:Hc.
      * exists {| Routes.status := 400;
                  Routes.body := Routes.LoginRefused
                    "SSO login is not available in container environments. Use IAM roles for production."
                    info |}, info.
        unfold Routes.await. run. rewrite Hd, Hc. cbn [fst snd].
        rewrite app_nil_r. repeat split; reflexivity.
      * destruct (hasAwsCli info) eqn:Hcli.
        -- destruct (RouteFacts.initiateSSORLogin_warm
                       (Routes.lr_profile requestData) w info Hcli Hc) as (t & Hlogin).
           destruct (execAsync w (loginCommand (Routes.lr_profile requestData)))
             as [out|e] eqn:Hexec.
           ++ eexists. exists info.
              unfold Routes.await. run. rewrite Hd, Hc, Hcli. cbn [negb].
              rewrite Hlogin. cbn [fst snd].
              split; [reflexivity|]. split; [reflexivity|].
              split; [reflexivity|]. discriminate.
           ++ eexists. exists info.
              unfold Routes.await. run. rewrite Hd, Hc, Hcli. cbn [negb].
              rewrite Hlogin. cbn [fst snd].
              split; [reflexivity|]. split; [reflexivity|].
              split; [reflexivity|]. discriminate.
        -- exists {| Routes.status := 400;
                     Routes.body := Routes.LoginRefused
                       "AWS CLI is not available. Install AWS CLI for SSO login in development environments."
                       info |}, info.
           unfold Routes.await. run. rewrite Hd, Hc, Hcli. cbn [fst snd negb].
           rewrite app_nil_r. repeat split; reflexivity.
    + eexists. exists info. unfold Routes.await. run. rewrite Hd. cbn [fst snd].
      split; [reflexivity|]. split; [reflexivity|].
      split; [reflexivity|]. discriminate.
  - eexists. exists info. rewrite Hd. cbn [result fst snd].
    split; [reflexivity|]. split; [reflexivity|].
    split; [reflexivity|]. discriminate.
Qed.



